(** * The PubMedQA reformatter of the Gemma LoRA notebook

    The notebook [models/Gemma/lora.ipynb] holds three helper functions,
    [write_jsonl], [form_question] and [convert_to_jsonl], which turn the
    PubMedQA question/answer file into prompt/completion pairs stored one
    JSON object per line.  This development embeds the three functions in
    Rocq, together with the part of the Python runtime they run on (the
    values [json.load] returns, subscripting, iteration, string formatting,
    the [json] encoder and decoder, text files), and proves the properties
    of the reformatter.

    Conventions of the model:
    - a Python [str] is a [string]; every [ascii] stands for one code point
      below 256.  The decoder answers [Unmodelled] on an escape that denotes
      a larger code point and on a number that denotes a float; it is
      given fuel, and never answers [OutOfFuel] ([json_loads_fuel]);
    - a Python [dict] is an association list in insertion order, read with
      [dict_get] and written with [dict_set], which keeps the keys distinct;
    - exceptions are values of [exn]; code that can raise returns a
      [result]; code that reads or writes files is a function of the
      [filesystem];
    - text mode is that of a POSIX system, where the characters of a file
      are read and written as they are, one unit of the device each;
    - a file open for writing has a buffer: [f.write] adds to it, and the
      buffer goes to the device when it has outgrown [buffer_size] and
      when the file is closed.  A device without room for the buffer takes
      the characters it has room for, and the write or the close raises
      [OSError];
    - [OSError] stands for the class: the exception of a path that cannot
      be opened for writing ([PermissionError], [FileNotFoundError] for a
      missing directory, [IsADirectoryError]) is modelled by it.  A source
      that is missing raises [FileNotFoundError]. *)

From Stdlib Require Import String Ascii List ZArith NArith Lia Bool PeanoNat.
From Stdlib Require Import DecimalString.
From Stdlib Require Decimal DecimalFacts DecimalPos.
Import ListNotations.
Open Scope string_scope.

(** ** Values, exceptions, results *)

Unset Elimination Schemes.
Inductive json : Type :=
| JNull
| JBool (b : bool)
| JInt (n : Z)
| JStr (s : string)
| JArr (l : list json)
| JObj (m : list (string * json)).
Set Elimination Schemes.

(** The key of a failed lookup: [obj['QUESTION']] or [contexts[0]]. *)
Inductive key : Type :=
| KStr (s : string)
| KInt (i : nat).

Inductive exn : Type :=
| JSONDecodeError
| FileNotFoundError
| OSError
| AttributeError
| TypeError
| KeyError (k : key)
| IndexError
| Unmodelled
| OutOfFuel.

Inductive result (A : Type) : Type :=
| Ok (a : A)
| Raise (e : exn).
Arguments Ok {A} a.
Arguments Raise {A} e.

Definition bind {A B : Type} (r : result A) (k : A -> result B) : result B :=
  match r with
  | Ok a => k a
  | Raise e => Raise e
  end.

Notation "x <- e ;; k" := (bind e (fun x => k))
  (at level 61, e at next level, right associativity).
Notation "' p <- e ;; k" := (bind e (fun p => k))
  (at level 61, p pattern, e at next level, right associativity).

(** ** Characters *)

Definition dquote : ascii := "034"%char.
Definition backslash : ascii := "092"%char.
Definition newline : ascii := "010"%char.
Definition carriage : ascii := "013"%char.
Definition tab : ascii := "009"%char.
Definition backspace : ascii := "008"%char.
Definition formfeed : ascii := "012"%char.

(** The string [chr(10)], written ["\n"] in the notebook. *)
Definition nl : string := String newline EmptyString.

Definition hex_digit (n : N) : ascii :=
  match String.get (N.to_nat n) "0123456789abcdef" with
  | Some c => c
  | None => "0"%char
  end.

(** Two lower-case hexadecimal digits of a character: [format(ord(c), '02x')]. *)
Definition hex2 (c : ascii) : string :=
  let n := N_of_ascii c in
  String (hex_digit (n / 16)) (String (hex_digit (n mod 16)) EmptyString).

Fixpoint contains (c : ascii) (s : string) : bool :=
  match s with
  | EmptyString => false
  | String d r => Ascii.eqb c d || contains c r
  end.

(** [str(n)] for an [int]. *)
Definition decimal (n : Z) : string := NilZero.string_of_int (Z.to_int n).

(** ** The Python runtime on [json.load]ed values *)

(** *** Dictionaries *)

Definition dict : Type := list (string * json).

Fixpoint dict_get (m : dict) (k : string) : option json :=
  match m with
  | [] => None
  | (k', v) :: rest => if String.eqb k' k then Some v else dict_get rest k
  end.

(** [m[k] = v]: the value of a present key is replaced where it stands, a
    new key goes to the end. *)
Fixpoint dict_set (m : dict) (k : string) (v : json) : dict :=
  match m with
  | [] => [(k, v)]
  | (k', v') :: rest =>
      if String.eqb k' k then (k', v) :: rest else (k', v') :: dict_set rest k v
  end.

(** [data.keys()]: only a [dict] has the attribute. *)
Definition keys (data : json) : result (list string) :=
  match data with
  | JObj m => Ok (map fst m)
  | _ => Raise AttributeError
  end.

(** *** Subscripting *)

(** [v[k]] for a string [k].  A [list] and a [str] want integer indices, the
    scalars are not subscriptable: all of them raise [TypeError]. *)
Definition getitem_str (v : json) (k : string) : result json :=
  match v with
  | JObj m =>
      match dict_get m k with
      | Some x => Ok x
      | None => Raise (KeyError (KStr k))
      end
  | _ => Raise TypeError
  end.

(** [v[i]] for the non-negative integer [i] that [enumerate] supplies.  The
    keys of a decoded [dict] are strings, so an integer is never among them. *)
Definition getitem_int (v : json) (i : nat) : result json :=
  match v with
  | JArr l =>
      match nth_error l i with
      | Some x => Ok x
      | None => Raise IndexError
      end
  | JStr s =>
      match String.get i s with
      | Some c => Ok (JStr (String c EmptyString))
      | None => Raise IndexError
      end
  | JObj _ => Raise (KeyError (KInt i))
  | _ => Raise TypeError
  end.

(** *** Iteration *)

Fixpoint chars (s : string) : list json :=
  match s with
  | EmptyString => []
  | String c r => JStr (String c EmptyString) :: chars r
  end.

(** The items [for x in v] runs over: the elements of a [list], the
    characters of a [str], the keys of a [dict]. *)
Definition iter (v : json) : result (list json) :=
  match v with
  | JArr l => Ok l
  | JStr s => Ok (chars s)
  | JObj m => Ok (map (fun kv => JStr (fst kv)) m)
  | _ => Raise TypeError
  end.

Definition enumerate {A : Type} (l : list A) : list (nat * A) :=
  combine (seq 0 (length l)) l.

(** *** [repr] and [str] *)

(** A character [str.isprintable] rejects, among those from 128 on. *)
Definition latin1_unprintable (n : N) : bool :=
  ((128 <=? n) && (n <=? 160) || (n =? 173))%N.

Definition repr_char (quote c : ascii) : string :=
  let n := N_of_ascii c in
  if Ascii.eqb c quote || Ascii.eqb c backslash then String backslash (String c EmptyString)
  else if Ascii.eqb c tab then String backslash "t"
  else if Ascii.eqb c newline then String backslash "n"
  else if Ascii.eqb c carriage then String backslash "r"
  else if ((n <? 32) || (n =? 127))%N then String backslash (String "x" (hex2 c))
  else if (n <? 127)%N then String c EmptyString
  else if latin1_unprintable n then String backslash (String "x" (hex2 c))
  else String c EmptyString.

Fixpoint repr_chars (quote : ascii) (s : string) : string :=
  match s with
  | EmptyString => EmptyString
  | String c r => repr_char quote c ++ repr_chars quote r
  end.

(** [repr(s)] for a [str]: single quotes, unless the text holds a single
    quote and no double quote. *)
Definition repr_str (s : string) : string :=
  let quote := if contains "'" s && negb (contains dquote s) then dquote else "'"%char in
  String quote (repr_chars quote s ++ String quote EmptyString).

Fixpoint repr (v : json) : string :=
  match v with
  | JNull => "None"
  | JBool true => "True"
  | JBool false => "False"
  | JInt n => decimal n
  | JStr s => repr_str s
  | JArr l => "[" ++ String.concat ", " (map repr l) ++ "]"
  | JObj m =>
      "{" ++ String.concat ", "
               (map (fun kv => let '(k, x) := kv in repr_str k ++ ": " ++ repr x) m)
          ++ "}"
  end.

(** [str(v)], which is what a replacement field [{v}] of an f-string
    inserts: a [str] as it is, anything else by its [repr]. *)
Definition str (v : json) : string :=
  match v with
  | JStr s => s
  | _ => repr v
  end.

(** ** The [json] encoder: [json.dumps] with its defaults *)

(** [ensure_ascii]: everything outside the printable ASCII range is escaped. *)
Definition escape_char (c : ascii) : string :=
  let n := N_of_ascii c in
  if Ascii.eqb c dquote then String backslash (String dquote EmptyString)
  else if Ascii.eqb c backslash then String backslash (String backslash EmptyString)
  else if Ascii.eqb c newline then String backslash "n"
  else if Ascii.eqb c carriage then String backslash "r"
  else if Ascii.eqb c tab then String backslash "t"
  else if Ascii.eqb c backspace then String backslash "b"
  else if Ascii.eqb c formfeed then String backslash "f"
  else if ((32 <=? n) && (n <=? 126))%N then String c EmptyString
  else String backslash ("u00" ++ hex2 c).

Fixpoint escape (s : string) : string :=
  match s with
  | EmptyString => EmptyString
  | String c r => escape_char c ++ escape r
  end.

Definition encode_basestring_ascii (s : string) : string :=
  String dquote (escape s ++ String dquote EmptyString).

(** Item separator [", "], key separator [": "], no indentation. *)
Fixpoint json_dumps (v : json) : string :=
  match v with
  | JNull => "null"
  | JBool true => "true"
  | JBool false => "false"
  | JInt n => decimal n
  | JStr s => encode_basestring_ascii s
  | JArr l => "[" ++ String.concat ", " (map json_dumps l) ++ "]"
  | JObj m =>
      "{" ++ String.concat ", "
               (map (fun kv => let '(k, x) := kv in
                               encode_basestring_ascii k ++ ": " ++ json_dumps x) m)
          ++ "}"
  end.

(** ** The [json] decoder: [json.loads] with its defaults *)

Definition is_ws (c : ascii) : bool :=
  Ascii.eqb c " " || Ascii.eqb c tab || Ascii.eqb c newline || Ascii.eqb c carriage.

Fixpoint skip_ws (s : string) : string :=
  match s with
  | EmptyString => EmptyString
  | String c r => if is_ws c then skip_ws r else s
  end.

Definition is_digit (c : ascii) : bool :=
  let n := N_of_ascii c in ((48 <=? n) && (n <=? 57))%N.

Definition digit_value (c : ascii) : Z := Z.of_N (N_of_ascii c) - 48.

Definition hex_value (c : ascii) : option N :=
  let n := N_of_ascii c in
  if ((48 <=? n) && (n <=? 57))%N then Some (n - 48)%N
  else if ((97 <=? n) && (n <=? 102))%N then Some (n - 87)%N
  else if ((65 <=? n) && (n <=? 70))%N then Some (n - 55)%N
  else None.

Definition hex4 (a b c d : ascii) : option N :=
  match hex_value a, hex_value b, hex_value c, hex_value d with
  | Some x, Some y, Some z, Some w => Some (((x * 16 + y) * 16 + z) * 16 + w)%N
  | _, _, _, _ => None
  end.

(** The character a one-letter escape stands for. *)
Definition unescape (e : ascii) : option ascii :=
  if Ascii.eqb e dquote then Some dquote
  else if Ascii.eqb e backslash then Some backslash
  else if Ascii.eqb e "/" then Some "/"%char
  else if Ascii.eqb e "b" then Some backspace
  else if Ascii.eqb e "f" then Some formfeed
  else if Ascii.eqb e "n" then Some newline
  else if Ascii.eqb e "r" then Some carriage
  else if Ascii.eqb e "t" then Some tab
  else None.

Definition push (c : ascii) (r : result (string * string)) : result (string * string) :=
  '(t, rest) <- r ;; Ok (String c t, rest).

(** The text of a string literal, read from just after its opening quote,
    and what follows the closing quote.  In strict mode a raw control
    character is an error. *)
Fixpoint scanstring (s : string) : result (string * string) :=
  match s with
  | EmptyString => Raise JSONDecodeError
  | String c r =>
      if Ascii.eqb c dquote then Ok (EmptyString, r)
      else if Ascii.eqb c backslash then
        match r with
        | EmptyString => Raise JSONDecodeError
        | String e r1 =>
            if Ascii.eqb e "u" then
              match r1 with
              | String h1 (String h2 (String h3 (String h4 r2))) =>
                  match hex4 h1 h2 h3 h4 with
                  | Some n =>
                      if (n <? 256)%N then push (ascii_of_N n) (scanstring r2)
                      else Raise Unmodelled
                  | None => Raise JSONDecodeError
                  end
              | _ => Raise JSONDecodeError
              end
            else
              match unescape e with
              | Some x => push x (scanstring r1)
              | None => Raise JSONDecodeError
              end
        end
      else if (N_of_ascii c <? 32)%N then Raise JSONDecodeError
      else push c (scanstring r)
  end.

Fixpoint strip_prefix (p s : string) : option string :=
  match p, s with
  | EmptyString, _ => Some s
  | String a p', String b s' => if Ascii.eqb a b then strip_prefix p' s' else None
  | String _ _, EmptyString => None
  end.

Fixpoint scan_digits (s : string) (acc : Z) : Z * string :=
  match s with
  | EmptyString => (acc, s)
  | String c r => if is_digit c then scan_digits r (10 * acc + digit_value c) else (acc, s)
  end.

(** Does a fraction or an exponent follow the integer part?  Then the
    literal denotes a float. *)
Definition float_follows (s : string) : bool :=
  match s with
  | String c (String d r) =>
      if Ascii.eqb c "." then is_digit d
      else if Ascii.eqb c "e" || Ascii.eqb c "E" then
        is_digit d
        || ((Ascii.eqb d "+" || Ascii.eqb d "-")
            && match r with String x _ => is_digit x | EmptyString => false end)
      else false
  | _ => false
  end.

Definition scan_number (s : string) : result (json * string) :=
  let '(negative, s1) :=
    match s with
    | String c r => if Ascii.eqb c "-" then (true, r) else (false, s)
    | EmptyString => (false, s)
    end in
  match s1 with
  | EmptyString => Raise JSONDecodeError
  | String c r =>
      if is_digit c then
        let '(n, rest) :=
          if Ascii.eqb c "0" then (0%Z, r) else scan_digits r (digit_value c) in
        if float_follows rest then Raise Unmodelled
        else Ok (JInt (if negative then - n else n)%Z, rest)
      else Raise JSONDecodeError
  end.

(** One value at the head of [s]; [parse_object] and [parse_array] read the
    members after the opening bracket, [acc] holding those read so far.
    A level of nesting takes a character of the text and at most two units
    of fuel, so a fuel above twice the length of the text is never used up
    ([json_loads_fuel]). *)
Fixpoint scan_once (fuel : nat) (s : string) {struct fuel} : result (json * string) :=
  match fuel with
  | O => Raise OutOfFuel
  | S f =>
      match s with
      | EmptyString => Raise JSONDecodeError
      | String c r =>
          if Ascii.eqb c dquote then
            '(t, rest) <- scanstring r ;; Ok (JStr t, rest)
          else if Ascii.eqb c "{" then
            match skip_ws r with
            | String c1 r1 =>
                if Ascii.eqb c1 "}" then Ok (JObj [], r1)
                else parse_object f (String c1 r1) []
            | EmptyString => Raise JSONDecodeError
            end
          else if Ascii.eqb c "[" then
            match skip_ws r with
            | String c1 r1 =>
                if Ascii.eqb c1 "]" then Ok (JArr [], r1)
                else parse_array f (String c1 r1) []
            | EmptyString => Raise JSONDecodeError
            end
          else
            match strip_prefix "null" s, strip_prefix "true" s, strip_prefix "false" s with
            | Some rest, _, _ => Ok (JNull, rest)
            | _, Some rest, _ => Ok (JBool true, rest)
            | _, _, Some rest => Ok (JBool false, rest)
            | None, None, None =>
                match strip_prefix "NaN" s, strip_prefix "Infinity" s,
                      strip_prefix "-Infinity" s with
                | None, None, None => scan_number s
                | _, _, _ => Raise Unmodelled
                end
            end
      end
  end
with parse_object (fuel : nat) (s : string) (acc : dict) {struct fuel}
  : result (json * string) :=
  match fuel with
  | O => Raise OutOfFuel
  | S f =>
      match s with
      | EmptyString => Raise JSONDecodeError
      | String c r =>
          if Ascii.eqb c dquote then
            '(k, r1) <- scanstring r ;;
            match skip_ws r1 with
            | EmptyString => Raise JSONDecodeError
            | String c2 r2 =>
                if Ascii.eqb c2 ":" then
                  '(v, r3) <- scan_once f (skip_ws r2) ;;
                  match skip_ws r3 with
                  | EmptyString => Raise JSONDecodeError
                  | String c4 r4 =>
                      if Ascii.eqb c4 "}" then Ok (JObj (dict_set acc k v), r4)
                      else if Ascii.eqb c4 "," then
                        parse_object f (skip_ws r4) (dict_set acc k v)
                      else Raise JSONDecodeError
                  end
                else Raise JSONDecodeError
            end
          else Raise JSONDecodeError
      end
  end
with parse_array (fuel : nat) (s : string) (acc : list json) {struct fuel}
  : result (json * string) :=
  match fuel with
  | O => Raise OutOfFuel
  | S f =>
      '(v, r1) <- scan_once f s ;;
      match skip_ws r1 with
      | EmptyString => Raise JSONDecodeError
      | String c2 r2 =>
          if Ascii.eqb c2 "]" then Ok (JArr (acc ++ [v]), r2)
          else if Ascii.eqb c2 "," then parse_array f (skip_ws r2) (acc ++ [v])
          else Raise JSONDecodeError
      end
  end.

(** [json.loads]: one value between optional white space, and nothing else. *)
Definition json_loads (text : string) : result json :=
  '(v, rest) <- scan_once (S (2 * String.length text)) (skip_ws text) ;;
  match skip_ws rest with
  | EmptyString => Ok v
  | String _ _ => Raise JSONDecodeError
  end.

(** ** Text files *)

(** The files by path, the paths that cannot be opened for writing (for
    want of a permission or of their directory), and the number of
    characters the device can still take. *)
Record filesystem : Type := mkfs {
  files : list (string * string);
  readonly : list string;
  free : nat
}.

Fixpoint lookup (l : list (string * string)) (p : string) : option string :=
  match l with
  | [] => None
  | (q, c) :: rest => if String.eqb q p then Some c else lookup rest p
  end.

Fixpoint update (l : list (string * string)) (p c : string) : list (string * string) :=
  match l with
  | [] => [(p, c)]
  | (q, d) :: rest => if String.eqb q p then (q, c) :: rest else (q, d) :: update rest p c
  end.

Definition content (fs : filesystem) (p : string) : string :=
  match lookup (files fs) p with
  | Some c => c
  | None => EmptyString
  end.

(** Code with access to the files: a result and the files it leaves. *)
Definition io (A : Type) : Type := filesystem -> result A * filesystem.

Definition io_bind {A B : Type} (m : io A) (k : A -> io B) : io B :=
  fun fs =>
    match m fs with
    | (Ok a, fs') => k a fs'
    | (Raise e, fs') => (Raise e, fs')
    end.

Definition io_ret {A : Type} (a : A) : io A := fun fs => (Ok a, fs).

(** A computation that touches no file. *)
Definition pure {A : Type} (r : result A) : io A := fun fs => (r, fs).

Notation "x <~ e ;; k" := (io_bind e (fun x => k))
  (at level 61, e at next level, right associativity).

(** [open(path, 'rt').read()]. *)
Definition read_text (path : string) : io string :=
  fun fs =>
    match lookup (files fs) path with
    | Some c => (Ok c, fs)
    | None => (Raise FileNotFoundError, fs)
    end.

(** [open(path, 'wt')]: the file is created or emptied, and the characters
    it held are free again.  A path that cannot be opened, for want of a
    permission or of its directory, raises an [OSError]; the subclasses
    ([PermissionError], [FileNotFoundError], [IsADirectoryError]) are not
    told apart. *)
Definition open_wt (path : string) : io unit :=
  fun fs =>
    if existsb (String.eqb path) (readonly fs) then (Raise OSError, fs)
    else (Ok tt, mkfs (update (files fs) path EmptyString) (readonly fs)
                      (free fs + String.length (content fs path))).

(** *** The buffer of a file open for writing *)

(** The first [n] characters of a text, and the others. *)
Fixpoint take (n : nat) (s : string) : string :=
  match n, s with
  | S n', String c r => String c (take n' r)
  | _, _ => EmptyString
  end.

Fixpoint drop (n : nat) (s : string) : string :=
  match n, s with
  | S n', String c r => drop n' r
  | _, _ => s
  end.

(** [io.DEFAULT_BUFFER_SIZE]. *)
Definition buffer_size : nat := 8 * 1024.

(** The buffer is handed to the device, which takes all of it, or takes
    what it has room for and raises [OSError]; what it did not take stays
    in the buffer. *)
Definition raw_write (path s : string) (fs : filesystem)
  : result unit * string * filesystem :=
  if Nat.leb (String.length s) (free fs) then
    (Ok tt, EmptyString,
     mkfs (update (files fs) path (content fs path ++ s)) (readonly fs)
          (free fs - String.length s))
  else
    (Raise OSError, drop (free fs) s,
     mkfs (update (files fs) path (content fs path ++ take (free fs) s)) (readonly fs) 0).

(** [f.write(s)] on the file opened at [path], whose buffer holds
    [pending]: the text goes to the buffer, and the buffer to the device
    once it has outgrown [buffer_size]. *)
Definition write (path pending s : string) (fs : filesystem)
  : result unit * string * filesystem :=
  let pending := pending ++ s in
  if Nat.leb (String.length pending) buffer_size then (Ok tt, pending, fs)
  else raw_write path pending fs.

(** [f.close()]: what is in the buffer goes to the device. *)
Definition close (path pending : string) : io unit :=
  fun fs => let '(r, _, fs') := raw_write path pending fs in (r, fs').

(** ** The notebook's functions *)

(** The loop of [write_jsonl], started with [pending] in the buffer of
    the file; it ends with the first exception. *)
Fixpoint write_lines (fname : string) (json_objs : list json) (pending : string)
         (fs : filesystem) : result unit * string * filesystem :=
  match json_objs with
  | [] => (Ok tt, pending, fs)
  | o :: rest =>
      match write fname pending (json_dumps o ++ nl) fs with
      | (Ok _, pending', fs') => write_lines fname rest pending' fs'
      | (Raise e, pending', fs') => (Raise e, pending', fs')
      end
  end.

(** The [with] statement closes the file when the loop is left, by its end
    or by an exception; an exception of [close] is the one that is
    raised. *)
Definition write_jsonl (fname : string) (json_objs : list json) : io unit :=
  _ <~ open_wt fname ;;
  fun fs =>
    let '(body, pending, fs1) := write_lines fname json_objs EmptyString fs in
    match body, close fname pending fs1 with
    | Ok _, closed => closed
    | Raise e, (Ok _, fs2) => (Raise e, fs2)
    | Raise _, (Raise e', fs2) => (Raise e', fs2)
    end.

Definition instruction_suffix : string :=
  "TARGET: the answer to the question given the context is (yes|no|maybe): ".

(** The loop of [form_question] over [enumerate(obj['LABELS'])]: the label
    is bound and not used, [obj['CONTEXTS']] is looked up in every round. *)
Fixpoint form_contexts (obj : json) (items : list (nat * json)) (st : string)
  : result string :=
  match items with
  | [] => Ok st
  | (i, _) :: rest =>
      contexts <- getitem_str obj "CONTEXTS" ;;
      c <- getitem_int contexts i ;;
      form_contexts obj rest (st ++ (str c ++ nl))
  end.

Definition form_question (obj : json) : result string :=
  let st := EmptyString in
  question <- getitem_str obj "QUESTION" ;;
  let st := st ++ ("QUESTION:" ++ str question ++ nl) in
  let st := st ++ "CONTEXT: " in
  labels <- getitem_str obj "LABELS" ;;
  items <- iter labels ;;
  st <- form_contexts obj (enumerate items) st ;;
  let st := st ++ instruction_suffix in
  Ok st.

(** The record [{"input": prompt, "output": completion}]. *)
Definition example (prompt : string) (completion : json) : json :=
  JObj [("input", JStr prompt); ("output", completion)].

(** The body of the loop of [convert_to_jsonl], for one record. *)
Definition convert_record (obj : json) : result json :=
  prompt <- form_question obj ;;
  completion <- getitem_str obj "reasoning_required_pred" ;;
  Ok (example prompt completion).

(** The loop of [convert_to_jsonl] over [data.keys()]. *)
Fixpoint convert_keys (data : json) (ks : list string) (json_objs : list json)
  : result (list json) :=
  match ks with
  | [] => Ok json_objs
  | k :: rest =>
      obj <- getitem_str data k ;;
      o <- convert_record obj ;;
      convert_keys data rest (json_objs ++ [o])
  end.

(** What [convert_to_jsonl] computes between reading and writing. *)
Definition convert_data (data : json) : result (list json) :=
  ks <- keys data ;;
  convert_keys data ks [].

Definition convert_to_jsonl (data_path output_path : string) : io (list json) :=
  text <~ read_text data_path ;;
  data <~ pure (json_loads text) ;;
  json_objs <~ pure (convert_data data) ;;
  _ <~ write_jsonl output_path json_objs ;;
  io_ret json_objs.

(** The cell that calls [convert_to_jsonl]: the test, training and
    validation sets one after the other, each to a file of its own; the
    three lists stay bound to [test_json_objs], [train_json_objs] and
    [dev_json_objs]. *)
Definition convert_datasets : io (list json * list json * list json) :=
  test_json_objs <~ convert_to_jsonl "pubmedqa/data/test_set.json" "pubmedqa_test.jsonl" ;;
  train_json_objs <~ convert_to_jsonl "pubmedqa/data/pqal_fold0/train_set.json"
                                     "pubmedqa_train.jsonl" ;;
  dev_json_objs <~ convert_to_jsonl "pubmedqa/data/pqal_fold0/dev_set.json"
                                   "pubmedqa_val.jsonl" ;;
  io_ret (test_json_objs, train_json_objs, dev_json_objs).

(** ** Notions the properties are stated with *)

(** [''.join(l)]. *)
Fixpoint join (l : list string) : string :=
  match l with
  | [] => EmptyString
  | x :: rest => x ++ join rest
  end.

(** The prompt for a question, the passages and a number [n] of labels:
    the passages at the indices below [n], one per line, between the
    question and the instruction. *)
Definition prompt_of (question : string) (passages : list string) (n : nat) : string :=
  "QUESTION:" ++ question ++ nl ++ "CONTEXT: "
  ++ join (map (fun i => nth i passages EmptyString ++ nl) (seq 0 n))
  ++ instruction_suffix.

Definition is_str (v : json) : bool :=
  match v with
  | JStr _ => true
  | _ => false
  end.

(** A source record of the data model: a question string, an array of
    passages, an array of labels with one label per passage, an answer
    string. *)
Definition valid_record (obj : json) : bool :=
  match obj with
  | JObj r =>
      match dict_get r "QUESTION", dict_get r "CONTEXTS", dict_get r "LABELS",
            dict_get r "reasoning_required_pred" with
      | Some (JStr _), Some (JArr cs), Some (JArr ls), Some (JStr _) =>
          forallb is_str cs && forallb is_str ls && (length ls =? length cs)%nat
      | _, _, _, _ => false
      end
  | _ => false
  end.

(** A source mapping all of whose records, as [data[k]] finds them, are
    valid. *)
Definition valid_mapping (data : json) : bool :=
  match data with
  | JObj m =>
      forallb (fun k => match dict_get m k with
                        | Some obj => valid_record obj
                        | None => false
                        end) (map fst m)
  | _ => false
  end.

(** The text [write_jsonl] writes for a list of records. *)
Definition text_of (json_objs : list json) : string :=
  join (map (fun o => json_dumps o ++ nl) json_objs).

(** The number of characters a run on [data] writes. *)
Definition output_size (data : json) : nat :=
  match convert_data data with
  | Ok json_objs => String.length (text_of json_objs)
  | Raise _ => 0
  end.

(** The lines of a text, each without its terminator. *)
Fixpoint split_lines (s : string) : list string :=
  match s with
  | EmptyString => []
  | String c r =>
      if Ascii.eqb c newline then EmptyString :: split_lines r
      else match split_lines r with
           | [] => [String c EmptyString]
           | l :: ls => String c l :: ls
           end
  end.

(** Can [path] be opened for writing? *)
Definition writable (fs : filesystem) (path : string) : bool :=
  negb (existsb (String.eqb path) (readonly fs)).

(** The number of characters the file at [path] can take once it is
    emptied. *)
Definition room (fs : filesystem) (path : string) : nat :=
  free fs + String.length (content fs path).

(** A text with [']  in place of the double quote, for readable JSON. *)
Definition jsq (s : string) : string :=
  string_of_list_ascii
    (map (fun c => if Ascii.eqb c "'" then dquote else c) (list_ascii_of_string s)).

(** Key [k] of [data] names a record that is converted to [o]. *)
Definition converts (data : json) (k : string) (o : json) : Prop :=
  exists obj, getitem_str data k = Ok obj /\ convert_record obj = Ok o.

(** The record [r] lacks field [f], and the conversion gets as far as
    looking [f] up: the question is looked up first, then the labels, the
    contexts once for every label, and the answer when the prompt is built. *)
Inductive lacks (r : dict) : string -> Prop :=
| lacks_question :
    dict_get r "QUESTION" = None -> lacks r "QUESTION"
| lacks_labels (q : json) :
    dict_get r "QUESTION" = Some q ->
    dict_get r "LABELS" = None -> lacks r "LABELS"
| lacks_contexts (q labels item : json) (items : list json) :
    dict_get r "QUESTION" = Some q ->
    dict_get r "LABELS" = Some labels ->
    iter labels = Ok (item :: items) ->
    dict_get r "CONTEXTS" = None -> lacks r "CONTEXTS"
| lacks_answer (prompt : string) :
    form_question (JObj r) = Ok prompt ->
    dict_get r "reasoning_required_pred" = None ->
    lacks r "reasoning_required_pred".

(** [fs'] differs from [fs] at most in the file at [p], and in the free
    room by what the size of that file makes up for. *)
Definition same_but (p : string) (fs fs' : filesystem) : Prop :=
  readonly fs' = readonly fs
  /\ update (files fs') p EmptyString = update (files fs) p EmptyString
  /\ room fs' p = room fs p.



(** ** Sample records *)

Definition two_passages : dict :=
  [("QUESTION", JStr "Is X true?");
   ("CONTEXTS", JArr [JStr "Evidence A"; JStr "Evidence B"]);
   ("LABELS", JArr [JStr "L1"; JStr "L2"]);
   ("reasoning_required_pred", JStr "yes")].

(** No passage and no label. *)
Definition no_passage : dict :=
  [("QUESTION", JStr "Is X true?");
   ("CONTEXTS", JArr []);
   ("LABELS", JArr []);
   ("reasoning_required_pred", JStr "maybe")].

(** One passage, two labels. *)
Definition surplus_label : dict :=
  [("QUESTION", JStr "Is X true?");
   ("CONTEXTS", JArr [JStr "Evidence A"]);
   ("LABELS", JArr [JStr "L1"; JStr "L2"]);
   ("reasoning_required_pred", JStr "yes")].

(** Two passages, one label. *)
Definition surplus_passage : dict :=
  [("QUESTION", JStr "Is X true?");
   ("CONTEXTS", JArr [JStr "Evidence A"; JStr "Evidence B"]);
   ("LABELS", JArr [JStr "L1"]);
   ("reasoning_required_pred", JStr "no")].

(** The scenario of the specification: one record under the key [q1]. *)
Definition scenario_text : string :=
  jsq "{'q1': {'QUESTION': 'Is X true?', 'CONTEXTS': ['Evidence A'], 'LABELS': ['L1'], 'reasoning_required_pred': 'yes'}}".

Definition scenario_record : dict :=
  [("QUESTION", JStr "Is X true?");
   ("CONTEXTS", JArr [JStr "Evidence A"]);
   ("LABELS", JArr [JStr "L1"]);
   ("reasoning_required_pred", JStr "yes")].

Definition scenario_mapping : json := JObj [("q1", JObj scenario_record)].

Definition scenario_prompt : string :=
  "QUESTION:Is X true?" ++ nl ++ "CONTEXT: Evidence A" ++ nl
  ++ "TARGET: the answer to the question given the context is (yes|no|maybe): ".

(** The expected line; [\n] is a backslash and the letter n here, as in the
    file. *)
Definition scenario_line : string :=
  jsq "{'input': 'QUESTION:Is X true?\nCONTEXT: Evidence A\nTARGET: the answer to the question given the context is (yes|no|maybe): ', 'output': 'yes'}".

Definition scenario_fs : filesystem :=
  mkfs [("pubmedqa/data/test_set.json", scenario_text)] [] 4096.

(** A record with two answer-like fields. *)
Definition two_answers_text : string :=
  jsq "{'q1': {'QUESTION': 'Is X true?', 'CONTEXTS': ['Evidence A'], 'LABELS': ['L1'], 'reasoning_required_pred': 'yes', 'final_decision': 'no'}}".

Definition two_answers : dict :=
  [("q1", JObj [("QUESTION", JStr "Is X true?");
                ("CONTEXTS", JArr [JStr "Evidence A"]);
                ("LABELS", JArr [JStr "L1"]);
                ("reasoning_required_pred", JStr "yes");
                ("final_decision", JStr "no")])].

Definition two_answers_fs : filesystem :=
  mkfs [("pubmedqa/data/test_set.json", two_answers_text)] [] 4096.

(** A record without contexts, and without labels to count them. *)
Definition no_contexts_text : string :=
  jsq "{'q1': {'QUESTION': 'Is X true?', 'LABELS': [], 'reasoning_required_pred': 'yes'}}".

Definition no_contexts : dict :=
  [("QUESTION", JStr "Is X true?");
   ("LABELS", JArr []);
   ("reasoning_required_pred", JStr "yes")].

Definition no_contexts_fs : filesystem :=
  mkfs [("pubmedqa/data/test_set.json", no_contexts_text)] [] 4096.

(** The record of the scenario, then a record without answer. *)
Definition no_answer_text : string :=
  jsq "{'q1': {'QUESTION': 'Is X true?', 'CONTEXTS': ['Evidence A'], 'LABELS': ['L1'], 'reasoning_required_pred': 'yes'}, 'q2': {'QUESTION': 'Is Y true?', 'CONTEXTS': ['Evidence B'], 'LABELS': ['L2']}}".

Definition no_answer : dict :=
  [("QUESTION", JStr "Is Y true?");
   ("CONTEXTS", JArr [JStr "Evidence B"]);
   ("LABELS", JArr [JStr "L2"])].

Definition no_answer_mapping : dict :=
  [("q1", JObj scenario_record); ("q2", JObj no_answer)].

Definition no_answer_fs : filesystem :=
  mkfs [("pubmedqa/data/test_set.json", no_answer_text)] [] 4096.

(** Two records. *)
Definition two_records_text : string :=
  jsq "{'q1': {'QUESTION': 'Is X true?', 'CONTEXTS': ['Evidence A'], 'LABELS': ['L1'], 'reasoning_required_pred': 'yes'}, 'q2': {'QUESTION': 'Is Y true?', 'CONTEXTS': ['Evidence B'], 'LABELS': ['L2'], 'reasoning_required_pred': 'no'}}".

Definition two_records_dict : dict :=
  [("q1", JObj scenario_record);
   ("q2", JObj [("QUESTION", JStr "Is Y true?");
                ("CONTEXTS", JArr [JStr "Evidence B"]);
                ("LABELS", JArr [JStr "L2"]);
                ("reasoning_required_pred", JStr "no")])].

(** The two records on a device with room to spare ... *)
Definition spare_device : filesystem :=
  mkfs [("pubmedqa/data/test_set.json", two_records_text)] [] 4096.

(** ... and on a device with room for the line of the first record only. *)
Definition full_device : filesystem :=
  mkfs [("pubmedqa/data/test_set.json", two_records_text)] [] 200.

(** The labels given as a text of two characters, and as an object with
    two keys. *)
Definition labels_as_text : dict :=
  [("QUESTION", JStr "Is X true?");
   ("CONTEXTS", JArr [JStr "Evidence A"; JStr "Evidence B"]);
   ("LABELS", JStr "ab");
   ("reasoning_required_pred", JStr "yes")].

(** A source that holds an empty mapping, and one that holds an array. *)
Definition empty_mapping_fs : filesystem :=
  mkfs [("pubmedqa/data/test_set.json", " { } ");
        ("pubmedqa_test.jsonl", "left over from an earlier run")] [] 0.

Definition array_text : string :=
  jsq "[{'QUESTION': 'Is X true?', 'CONTEXTS': [], 'LABELS': [], 'reasoning_required_pred': 'maybe'}]".

Definition array_fs : filesystem :=
  mkfs [("pubmedqa/data/test_set.json", array_text)] [] 4096.

(** A good record, then a text where a record should be, then a record
    without any field. *)
Definition bad_records_text : string :=
  jsq "{'q1': {'QUESTION': 'Is X true?', 'CONTEXTS': ['Evidence A'], 'LABELS': ['L1'], 'reasoning_required_pred': 'yes'}, 'q2': 'not a record', 'q3': {}}".

Definition bad_records : dict :=
  [("q1", JObj scenario_record); ("q2", JStr "not a record"); ("q3", JObj [])].

Definition bad_records_fs : filesystem :=
  mkfs [("pubmedqa/data/test_set.json", bad_records_text)] [] 4096.

(** The three sources of the notebook, and the test source alone. *)
Definition three_sources : filesystem :=
  mkfs [("pubmedqa/data/test_set.json", scenario_text);
        ("pubmedqa/data/pqal_fold0/train_set.json", two_records_text);
        ("pubmedqa/data/pqal_fold0/dev_set.json", no_contexts_text)] [] 4096.

(** ** Well-formed values *)

Fixpoint distinct (l : list string) : bool :=
  match l with
  | [] => true
  | x :: rest => negb (existsb (String.eqb x) rest) && distinct rest
  end.

(** A value all of whose objects, at any depth, have distinct keys, as
    the objects of Python have. *)
Fixpoint wf (v : json) : bool :=
  match v with
  | JArr l => forallb wf l
  | JObj m => distinct (map fst m) && forallb (fun kv => let '(_, x) := kv in wf x) m
  | _ => true
  end.

(** A bound on the fuel the decoder takes on the text of a value. *)
Fixpoint size (v : json) : nat :=
  match v with
  | JArr l => S (list_sum (map (fun x => S (size x)) l))
  | JObj m => S (list_sum (map (fun kv => let '(_, x) := kv in S (size x)) m))
  | _ => 1
  end.

(** What may follow a value in a text: nothing, a comma, a closing bracket
    or white space. *)
Definition delimited (rest : string) : bool :=
  match rest with
  | EmptyString => true
  | String c _ => Ascii.eqb c "," || Ascii.eqb c "]" || Ascii.eqb c "}" || is_ws c
  end.

(** Induction on a value, with the property at hand for the elements of an
    array and for the values of an object. *)
Fixpoint json_induction (P : json -> Prop)
    (Hnull : P JNull) (Hbool : forall b, P (JBool b)) (Hint : forall n, P (JInt n))
    (Hstr : forall s, P (JStr s))
    (Harr : forall l, Forall P l -> P (JArr l))
    (Hobj : forall m, Forall (fun kv => P (snd kv)) m -> P (JObj m))
    (v : json) {struct v} : P v :=
  match v with
  | JNull => Hnull
  | JBool b => Hbool b
  | JInt n => Hint n
  | JStr s => Hstr s
  | JArr l =>
      Harr l ((fix go (l : list json) : Forall P l :=
                 match l with
                 | [] => Forall_nil P
                 | x :: rest =>
                     Forall_cons x
                       (json_induction P Hnull Hbool Hint Hstr Harr Hobj x) (go rest)
                 end) l)
  | JObj m =>
      Hobj m ((fix go (m : list (string * json)) : Forall (fun kv => P (snd kv)) m :=
                 match m with
                 | [] => Forall_nil _
                 | kv :: rest =>
                     Forall_cons kv
                       (json_induction P Hnull Hbool Hint Hstr Harr Hobj (snd kv)) (go rest)
                 end) m)
  end.

(** The text of a member of an object. *)
Definition member (kv : string * json) : string :=
  let '(k, x) := kv in encode_basestring_ascii k ++ ": " ++ json_dumps x.

(** The decoder, given fuel for it, reads the text of [v] back, and stops
    where the text stops. *)
Definition decodes (v : json) : Prop :=
  wf v = true ->
  forall f rest, size v <= f -> delimited rest = true ->
  scan_once f (json_dumps v ++ rest) = Ok (v, rest).

(** Objects of several shapes for [write_jsonl]: nested values, a
    negative number, a text with a newline and a quote in it. *)
Definition mixed_objects : list json :=
  [JObj [("id", JInt (-12));
         ("tags", JArr [JNull; JBool true; JStr ("first line" ++ nl ++ "second line")]);
         ("more", JObj [])];
   JStr (String dquote "quoted");
   JInt 0;
   JArr []].

Definition used_fs : filesystem :=
  mkfs [("pubmedqa_test.jsonl", "left over from an earlier run")] [] 4096.

(** A record whose answer is an object, and whose question holds a quote
    and a newline. *)
Definition nested_answer_text : string :=
  jsq "{'q1': {'QUESTION': 'Is \'X\' true,\nor false?', 'CONTEXTS': ['Evidence A'], 'LABELS': ['L1'], 'reasoning_required_pred': {'label': 'yes', 'votes': [2, -1, 0]}}}".

Definition nested_answer_record : json :=
  example ("QUESTION:Is " ++ String dquote ("X" ++ String dquote (" true," ++ nl
           ++ "or false?" ++ nl ++ "CONTEXT: Evidence A" ++ nl ++ instruction_suffix)))
          (JObj [("label", JStr "yes"); ("votes", JArr [JInt 2; JInt (-1); JInt 0])]).

Definition nested_answer_fs : filesystem :=
  mkfs [("pubmedqa/data/test_set.json", nested_answer_text)] [] 4096.

(** The source of the scenario, about to be converted in place. *)
Definition in_place_fs : filesystem :=
  mkfs [("pubmedqa.json", scenario_text)] [] 4096.

(** The contexts given as one text instead of an array of passages. *)
Definition contexts_as_text : dict :=
  [("QUESTION", JStr "Is X true?");
   ("CONTEXTS", JStr "Evidence A");
   ("LABELS", JArr [JStr "L1"; JStr "L2"]);
   ("reasoning_required_pred", JStr "yes")].

(** ** Strings and lists *)

Lemma append_nil_r (s : string) : s ++ EmptyString = s.
Proof. induction s as [| c s IH]; simpl; [reflexivity | now rewrite IH]. Qed.

Lemma append_assoc (a b c : string) : (a ++ b) ++ c = a ++ (b ++ c).
Proof. induction a as [| x a IH]; simpl; [reflexivity | now rewrite IH]. Qed.

Lemma length_append (a b : string) :
  String.length (a ++ b) = String.length a + String.length b.
Proof. induction a as [| x a IH]; simpl; [reflexivity | now rewrite IH]. Qed.

Lemma contains_append (c : ascii) (a b : string) :
  contains c (a ++ b) = contains c a || contains c b.
Proof.
  induction a as [| x a IH]; simpl; [reflexivity |].
  now rewrite IH, orb_assoc.
Qed.

Lemma join_app (l1 l2 : list string) : join (l1 ++ l2) = join l1 ++ join l2.
Proof.
  induction l1 as [| x l1 IH]; simpl; [reflexivity |].
  now rewrite IH, append_assoc.
Qed.

Lemma map_nth_seq {A : Type} (d : A) (l : list A) (n : nat) :
  n <= length l -> map (fun i => nth i l d) (seq 0 n) = firstn n l.
Proof.
  revert n; induction l as [| x l IH]; intros [| n] Hn; simpl in *; try reflexivity; try lia.
  f_equal. rewrite <- seq_shift, map_map. apply IH. lia.
Qed.

(** ** [bind] *)

Lemma bind_ok {A B : Type} (r : result A) (k : A -> result B) (b : B) :
  bind r k = Ok b -> exists a, r = Ok a /\ k a = Ok b.
Proof. destruct r as [a | e]; simpl; [eauto | discriminate]. Qed.


(** ** [form_question] *)

Section Contexts.
Variables (r : dict) (cs : list json).
Hypothesis Hcs : dict_get r "CONTEXTS" = Some (JArr cs).

(** The loop, started at index [a], appends the passages at the indices
    it visits when all of them exist. *)
Lemma form_contexts_in_range (ls : list json) :
  forall a st, a + length ls <= length cs ->
  form_contexts (JObj r) (combine (seq a (length ls)) ls) st
  = Ok (st ++ join (map (fun i => str (nth i cs JNull) ++ nl) (seq a (length ls)))).
Proof.
  induction ls as [| l ls IH]; intros a st Ha; simpl.
  - now rewrite append_nil_r.
  - rewrite Hcs; simpl.
    rewrite (nth_error_nth' cs JNull) by (simpl in Ha; lia); simpl.
    rewrite IH by (simpl in Ha; lia).
    now rewrite !append_assoc.
Qed.

(** It raises [IndexError] when it runs past the last passage. *)
Lemma form_contexts_out_of_range (ls : list json) :
  forall a st, a <= length cs < a + length ls ->
  form_contexts (JObj r) (combine (seq a (length ls)) ls) st = Raise IndexError.
Proof.
  induction ls as [| l ls IH]; intros a st Ha; simpl in *; [lia |].
  rewrite Hcs; simpl.
  destruct (nth_error cs a) as [c |] eqn:E; simpl.
  - apply IH. assert (a < length cs) by (apply nth_error_Some; congruence). lia.
  - reflexivity.
Qed.
End Contexts.

Lemma passages_lines (passages : list string) (a n : nat) :
  a + n <= length passages ->
  map (fun i => str (nth i (map JStr passages) JNull) ++ nl) (seq a n)
  = map (fun i => nth i passages EmptyString ++ nl) (seq a n).
Proof.
  intros Hn. apply map_ext_in. intros i Hi. apply in_seq in Hi.
  rewrite (nth_indep _ JNull (JStr EmptyString)) by (rewrite length_map; lia).
  now rewrite (map_nth JStr).
Qed.

(** The prompt of a record whose contexts and labels are arrays. *)
Lemma form_question_arrays (r : dict) (q : json) (cs ls : list json) :
  dict_get r "QUESTION" = Some q ->
  dict_get r "CONTEXTS" = Some (JArr cs) ->
  dict_get r "LABELS" = Some (JArr ls) ->
  form_question (JObj r)
  = if (length ls <=? length cs)%nat
    then Ok ("QUESTION:" ++ str q ++ nl ++ "CONTEXT: "
             ++ join (map (fun i => str (nth i cs JNull) ++ nl) (seq 0 (length ls)))
             ++ instruction_suffix)
    else Raise IndexError.
Proof.
  intros Hq Hc Hl. unfold form_question, getitem_str.
  rewrite Hq, Hl. cbn [bind iter]. unfold enumerate.
  destruct (Nat.leb_spec (length ls) (length cs)) as [Hle | Hlt].
  - rewrite (form_contexts_in_range r cs Hc) by (simpl; lia). cbn [bind].
    f_equal. cbn [String.append]. now rewrite !append_assoc.
  - rewrite (form_contexts_out_of_range r cs Hc) by lia. reflexivity.
Qed.

(** Whatever the record, a prompt that is built ends with the instruction. *)
Lemma form_question_suffix (obj : json) (st : string) :
  form_question obj = Ok st -> exists body, st = body ++ instruction_suffix.
Proof.
  unfold form_question. intros H.
  apply bind_ok in H as (q & _ & H).
  apply bind_ok in H as (labels & _ & H).
  apply bind_ok in H as (items & _ & H).
  apply bind_ok in H as (st' & _ & H).
  injection H as <-. now exists st'.
Qed.

Lemma all_strings (cs : list json) :
  forallb is_str cs = true -> exists passages, cs = map JStr passages.
Proof.
  induction cs as [| c cs IH]; intros H; [now exists [] |].
  simpl in H. apply andb_prop in H as [Hc Hcs].
  destruct c as [| | | p | |]; try discriminate.
  destruct (IH Hcs) as [ps ->]. now exists (p :: ps).
Qed.

Lemma valid_record_fields (obj : json) :
  valid_record obj = true ->
  exists r q passages ls a,
    obj = JObj r
    /\ dict_get r "QUESTION" = Some (JStr q)
    /\ dict_get r "CONTEXTS" = Some (JArr (map JStr passages))
    /\ dict_get r "LABELS" = Some (JArr ls)
    /\ dict_get r "reasoning_required_pred" = Some (JStr a)
    /\ length ls = length passages.
Proof.
  destruct obj as [| | | | | r]; try discriminate. simpl.
  destruct (dict_get r "QUESTION") as [[| | | q | |] |] eqn:Eq; try discriminate.
  destruct (dict_get r "CONTEXTS") as [[| | | | cs |] |] eqn:Ec; try discriminate.
  destruct (dict_get r "LABELS") as [[| | | | ls |] |] eqn:El; try discriminate.
  destruct (dict_get r "reasoning_required_pred") as [[| | | a | |] |] eqn:Ea;
    try discriminate.
  intros H. apply andb_prop in H as [H Hlen]. apply andb_prop in H as [Hcs _].
  apply Nat.eqb_eq in Hlen.
  destruct (all_strings cs Hcs) as [passages ->]. rewrite length_map in Hlen.
  exists r, q, passages, ls, a. repeat split; assumption || reflexivity.
Qed.

(** The record produced for a record whose contexts and labels are arrays. *)
Lemma convert_record_arrays (r : dict) (q : json) (cs ls : list json) (a : json) :
  dict_get r "QUESTION" = Some q ->
  dict_get r "CONTEXTS" = Some (JArr cs) ->
  dict_get r "LABELS" = Some (JArr ls) ->
  dict_get r "reasoning_required_pred" = Some a ->
  length ls <= length cs ->
  convert_record (JObj r)
  = Ok (example ("QUESTION:" ++ str q ++ nl ++ "CONTEXT: "
                 ++ join (map (fun i => str (nth i cs JNull) ++ nl) (seq 0 (length ls)))
                 ++ instruction_suffix) a).
Proof.
  intros Hq Hc Hl Ha Hle. unfold convert_record.
  rewrite (form_question_arrays r q cs ls Hq Hc Hl).
  apply Nat.leb_le in Hle. rewrite Hle. cbn [bind getitem_str]. now rewrite Ha.
Qed.

(** A valid record is converted, and its answer string is the completion. *)
Lemma convert_record_valid (obj : json) :
  valid_record obj = true ->
  exists prompt a,
    convert_record obj = Ok (example prompt (JStr a))
    /\ getitem_str obj "reasoning_required_pred" = Ok (JStr a).
Proof.
  intros Hv.
  destruct (valid_record_fields obj Hv)
    as (r & q & passages & ls & a & -> & Hq & Hc & Hl & Ha & Hlen).
  eexists _, a. split.
  - apply (convert_record_arrays r _ _ _ _ Hq Hc Hl Ha). rewrite length_map. lia.
  - unfold getitem_str. now rewrite Ha.
Qed.

(** ** The loop over the keys *)

Section Keys.
Variable data : json.

Lemma convert_keys_ok (ks : list string) (objs : list json) :
  Forall2 (converts data) ks objs ->
  forall acc, convert_keys data ks acc = Ok (acc ++ objs)%list.
Proof.
  induction 1 as [| k o ks objs (obj & Hk & Ho) _ IH]; intros acc; simpl.
  - now rewrite app_nil_r.
  - rewrite Hk; simpl. rewrite Ho; simpl. rewrite IH, <- app_assoc. reflexivity.
Qed.

Lemma convert_keys_inv (ks : list string) :
  forall acc res, convert_keys data ks acc = Ok res ->
  exists objs, res = (acc ++ objs)%list /\ Forall2 (converts data) ks objs.
Proof.
  induction ks as [| k ks IH]; intros acc res H; simpl in H.
  - injection H as <-. exists []. now rewrite app_nil_r.
  - apply bind_ok in H as (obj & Hk & H).
    apply bind_ok in H as (o & Ho & H).
    destruct (IH _ _ H) as (objs & -> & Hall).
    exists (o :: objs). rewrite <- app_assoc. split; [reflexivity |].
    constructor; [now exists obj | assumption].
Qed.

(** The first record that raises ends the loop with its exception. *)
Lemma convert_keys_raise (pre : list string) (done : list json)
      (k : string) (post : list string) (obj : json) (e : exn) :
  Forall2 (converts data) pre done ->
  getitem_str data k = Ok obj ->
  convert_record obj = Raise e ->
  forall acc, convert_keys data (pre ++ k :: post) acc = Raise e.
Proof.
  intros Hpre Hk He.
  induction Hpre as [| k' o pre done (obj' & Hk' & Ho') _ IH]; intros acc; simpl.
  - rewrite Hk; simpl. now rewrite He.
  - rewrite Hk'; simpl. rewrite Ho'; simpl. apply IH.
Qed.
End Keys.

Lemma convert_data_inv (data : json) (objs : list json) :
  convert_data data = Ok objs ->
  exists m, data = JObj m /\ Forall2 (converts data) (map fst m) objs.
Proof.
  unfold convert_data. intros H. apply bind_ok in H as (ks & Hks & H).
  destruct data as [| | | | | m]; try discriminate. injection Hks as <-.
  destruct (convert_keys_inv _ _ _ _ H) as (objs' & -> & Hall).
  now exists m.
Qed.

(** A mapping of valid records is converted, key by key and in order. *)
Lemma convert_data_valid (m : dict) :
  valid_mapping (JObj m) = true ->
  exists objs,
    convert_data (JObj m) = Ok objs
    /\ Forall2 (fun k o => exists obj prompt a,
                   dict_get m k = Some obj /\ valid_record obj = true
                   /\ convert_record obj = Ok o
                   /\ o = example prompt (JStr a)
                   /\ getitem_str obj "reasoning_required_pred" = Ok (JStr a))
               (map fst m) objs.
Proof.
  unfold valid_mapping, convert_data. cbn [keys bind].
  generalize (map fst m) as ks. intros ks Hv.
  assert (H : exists objs,
             Forall2 (fun k o => exists obj prompt a,
                        dict_get m k = Some obj /\ valid_record obj = true
                        /\ convert_record obj = Ok o
                        /\ o = example prompt (JStr a)
                        /\ getitem_str obj "reasoning_required_pred" = Ok (JStr a))
                     ks objs).
  { induction ks as [| k ks IH]; [exists []; constructor |].
    simpl in Hv. apply andb_prop in Hv as [Hk Hv].
    destruct (IH Hv) as [objs Hobjs].
    destruct (dict_get m k) as [obj |] eqn:E; [| discriminate].
    destruct (convert_record_valid obj Hk) as (prompt & a & Ho & Ha).
    exists (example prompt (JStr a) :: objs). constructor; [| assumption].
    now exists obj, prompt, a. }
  destruct H as [objs H]. exists objs. split; [| exact H].
  rewrite (convert_keys_ok (JObj m) ks objs); [reflexivity |].
  eapply Forall2_impl; [| exact H].
  intros k o (obj & prompt & a & Hk & _ & Ho & _). exists obj. split; [| exact Ho].
  unfold getitem_str. now rewrite Hk.
Qed.

(** ** Files *)

Lemma lookup_update_same (l : list (string * string)) (p c : string) :
  lookup (update l p c) p = Some c.
Proof.
  induction l as [| [q d] l IH]; simpl.
  - now rewrite String.eqb_refl.
  - destruct (String.eqb q p) eqn:E; simpl; rewrite E; [reflexivity | exact IH].
Qed.

Lemma lookup_update_other (l : list (string * string)) (p q c : string) :
  p <> q -> lookup (update l p c) q = lookup l q.
Proof.
  intros Hpq. induction l as [| [q' d] l IH]; simpl.
  - apply String.eqb_neq in Hpq. now rewrite Hpq.
  - destruct (String.eqb q' p) eqn:E; simpl.
    + apply String.eqb_eq in E. subst q'.
      apply String.eqb_neq in Hpq. now rewrite Hpq.
    + now rewrite IH.
Qed.

Lemma update_update (l : list (string * string)) (p a b : string) :
  update (update l p a) p b = update l p b.
Proof.
  induction l as [| [q d] l IH]; simpl.
  - now rewrite String.eqb_refl.
  - destruct (String.eqb q p) eqn:E; simpl; rewrite E; [reflexivity | now rewrite IH].
Qed.

Lemma update_lookup (l : list (string * string)) (p c : string) :
  lookup l p = Some c -> update l p c = l.
Proof.
  induction l as [| [q d] l IH]; simpl; [discriminate |].
  destruct (String.eqb q p) eqn:E.
  - now intros [= ->].
  - intros H. now rewrite IH.
Qed.

Lemma content_update (fs : filesystem) (p c : string) (ro : list string) (n : nat) :
  content (mkfs (update (files fs) p c) ro n) p = c.
Proof. unfold content; simpl. now rewrite lookup_update_same. Qed.

(** ** Properties of one record *)

(** C1. For a record with a question string, an array of passages, an array
    of labels and an answer, the [input] of the produced record is
    ["QUESTION:"], the question and a newline, then ["CONTEXT: "], then
    [contexts[i]] and a newline for every index [i] below the number of
    labels, then the instruction; the labels contribute their number only.
    The record is produced whenever every such [contexts[i]] exists, and
    [IndexError] is raised otherwise. *)
Theorem form_question_concatenation
    (r : dict) (q : string) (passages : list string) (ls : list json) (a : json) :
  dict_get r "QUESTION" = Some (JStr q) ->
  dict_get r "CONTEXTS" = Some (JArr (map JStr passages)) ->
  dict_get r "LABELS" = Some (JArr ls) ->
  dict_get r "reasoning_required_pred" = Some a ->
  form_question (JObj r)
  = (if (length ls <=? length passages)%nat
     then Ok (prompt_of q passages (length ls))
     else Raise IndexError)
  /\ convert_record (JObj r)
     = (if (length ls <=? length passages)%nat
        then Ok (example (prompt_of q passages (length ls)) a)
        else Raise IndexError).
Proof.
  intros Hq Hc Hl Ha.
  assert (Hform : form_question (JObj r)
                  = if (length ls <=? length passages)%nat
                    then Ok (prompt_of q passages (length ls))
                    else Raise IndexError).
  { rewrite (form_question_arrays r _ _ _ Hq Hc Hl), length_map.
    destruct (Nat.leb_spec (length ls) (length passages)) as [Hle | Hlt]; [| reflexivity].
    now rewrite passages_lines by (simpl; lia). }
  split; [exact Hform |].
  unfold convert_record. rewrite Hform.
  destruct (length ls <=? length passages)%nat; [| reflexivity].
  cbn [bind getitem_str]. now rewrite Ha.
Qed.

Lemma form_question_concatenation_witness :
  convert_record (JObj two_passages)
  = Ok (example (prompt_of "Is X true?" ["Evidence A"; "Evidence B"] 2) (JStr "yes")).
Proof.
  exact (proj2 (form_question_concatenation two_passages "Is X true?"
                  ["Evidence A"; "Evidence B"] [JStr "L1"; JStr "L2"] (JStr "yes")
                  eq_refl eq_refl eq_refl eq_refl)).
Defined.



(** C8. With more labels than passages the prompt construction raises
    [IndexError]; with more passages than labels the record is converted
    and its prompt holds the first passages only, as many as there are
    labels. *)
Theorem length_mismatch (r : dict) (q : json) (cs ls : list json) :
  dict_get r "QUESTION" = Some q ->
  dict_get r "CONTEXTS" = Some (JArr cs) ->
  dict_get r "LABELS" = Some (JArr ls) ->
  (length cs < length ls ->
   form_question (JObj r) = Raise IndexError
   /\ convert_record (JObj r) = Raise IndexError)
  /\ (length ls < length cs ->
      forall a, dict_get r "reasoning_required_pred" = Some a ->
      convert_record (JObj r)
      = Ok (example ("QUESTION:" ++ str q ++ nl ++ "CONTEXT: "
                     ++ join (map (fun c => str c ++ nl) (firstn (length ls) cs))
                     ++ instruction_suffix) a)).
Proof.
  intros Hq Hc Hl.
  pose proof (form_question_arrays r q cs ls Hq Hc Hl) as Hform.
  split.
  - intros Hlt. apply Nat.leb_gt in Hlt. rewrite Hlt in Hform.
    split; [exact Hform |]. unfold convert_record. now rewrite Hform.
  - intros Hlt a Ha.
    assert (Hle : (length ls <=? length cs)%nat = true) by (apply Nat.leb_le; lia).
    rewrite Hle in Hform. unfold convert_record. rewrite Hform.
    cbn [bind getitem_str]. rewrite Ha.
    rewrite <- (map_nth_seq JNull cs (length ls)) by lia.
    now rewrite map_map.
Qed.

Lemma length_mismatch_witness :
  (form_question (JObj surplus_label) = Raise IndexError
   /\ convert_record (JObj surplus_label) = Raise IndexError)
  /\ convert_record (JObj surplus_passage)
     = Ok (example ("QUESTION:" ++ "Is X true?" ++ nl ++ "CONTEXT: "
                    ++ join ["Evidence A" ++ nl] ++ instruction_suffix) (JStr "no")).
Proof.
  split.
  - apply (proj1 (length_mismatch surplus_label (JStr "Is X true?")
                    [JStr "Evidence A"] [JStr "L1"; JStr "L2"]
                    eq_refl eq_refl eq_refl)).
    simpl; lia.
  - apply (proj2 (length_mismatch surplus_passage (JStr "Is X true?")
                    [JStr "Evidence A"; JStr "Evidence B"] [JStr "L1"]
                    eq_refl eq_refl eq_refl)).
    + simpl; lia.
    + reflexivity.
Defined.

(** ** Writing the lines *)

Lemma text_of_cons (o : json) (objs : list json) :
  text_of (o :: objs) = (json_dumps o ++ nl) ++ text_of objs.
Proof. reflexivity. Qed.

Section Writing.
Variable p : string.

Lemma take_drop (n : nat) (s : string) : take n s ++ drop n s = s.
Proof.
  revert n. induction s as [| c s IH]; intros [| n]; cbn [take drop String.append];
    try reflexivity. now rewrite IH.
Qed.

Lemma take_length (n : nat) (s : string) :
  n <= String.length s -> String.length (take n s) = n.
Proof.
  revert n. induction s as [| c s IH]; intros [| n] H; cbn [take String.length] in *;
    try reflexivity; try lia. now rewrite IH by lia.
Qed.

Lemma take_append_l (n : nat) (a b : string) :
  n <= String.length a -> take n (a ++ b) = take n a.
Proof.
  revert n. induction a as [| c a IH]; intros [| n] H;
    cbn [take String.length String.append] in *; try reflexivity; try lia.
  now rewrite IH by lia.
Qed.

Lemma take_append_r (n : nat) (a b : string) :
  take (String.length a + n) (a ++ b) = a ++ take n b.
Proof. induction a as [| c a IH]; cbn [take String.length String.append Nat.add];
  [reflexivity | now rewrite IH]. Qed.

Lemma drop_nonempty (n : nat) (s : string) :
  n < String.length s -> drop n s <> EmptyString.
Proof.
  revert n. induction s as [| c s IH]; intros [| n] H; cbn [drop String.length] in *;
    try lia; [discriminate | apply IH; lia].
Qed.

(** What the loop leaves, started with [pending] in the buffer on a file
    that holds [c]: either the device took a first part [W] of the text and
    the rest is in the buffer, or the device is full, with as much of the
    text as it had room for, and something is left in the buffer. *)
Lemma write_lines_spec (objs : list json) :
  forall pending fs c,
    lookup (files fs) p = Some c ->
    (exists W P,
        W ++ P = pending ++ text_of objs
        /\ String.length W <= free fs
        /\ write_lines p objs pending fs
           = (Ok tt, P, mkfs (update (files fs) p (c ++ W)) (readonly fs)
                             (free fs - String.length W)))
    \/ (free fs < String.length (pending ++ text_of objs)
        /\ exists P,
             P <> EmptyString
             /\ write_lines p objs pending fs
                = (Raise OSError, P,
                   mkfs (update (files fs) p (c ++ take (free fs) (pending ++ text_of objs)))
                        (readonly fs) 0)).
Proof.
  induction objs as [| o objs IH]; intros pending [fl ro fr] c Hc; cbn [files free readonly] in *.
  - left. exists EmptyString, pending. cbn [write_lines String.append String.length].
    split; [now rewrite append_nil_r |]. split; [lia |].
    now rewrite append_nil_r, (update_lookup _ _ _ Hc), Nat.sub_0_r.
  - rewrite text_of_cons, <- append_assoc.
    set (line := json_dumps o ++ nl). cbn [write_lines]. unfold write. fold line. clearbody line.
    destruct (Nat.leb (String.length (pending ++ line)) buffer_size).
    + apply (IH (pending ++ line) (mkfs fl ro fr) c Hc).
    + unfold raw_write. cbn [files free readonly]. unfold content; cbn [files]. rewrite Hc.
      destruct (Nat.leb_spec (String.length (pending ++ line)) fr) as [Hle | Hgt].
      * destruct (IH EmptyString
                    (mkfs (update fl p (c ++ (pending ++ line))) ro
                          (fr - String.length (pending ++ line)))
                    (c ++ (pending ++ line)))
          as [(W & P & HWP & HW & Hrun) | (Hover & P & HP & Hrun)];
          cbn [files free readonly String.append] in *;
          try apply lookup_update_same.
        -- left. exists ((pending ++ line) ++ W), P.
           rewrite Hrun, update_update, !append_assoc, HWP, !length_append.
           rewrite !length_append in *.
           repeat split; [lia |]. do 2 f_equal. lia.
        -- right. split; [rewrite !length_append in *; lia |]. exists P. split; [exact HP |].
           rewrite Hrun, update_update, !append_assoc. do 3 f_equal.
           replace fr with (String.length (pending ++ line)
                            + (fr - String.length (pending ++ line))) at 2 by lia.
           rewrite <- (append_assoc pending line (text_of objs)), take_append_r.
           now rewrite !append_assoc.
      * right. split; [rewrite !length_append in *; lia |].
        exists (drop fr (pending ++ line)). split; [now apply drop_nonempty |].
        rewrite (take_append_l fr (pending ++ line) (text_of objs)) by lia. reflexivity.
Qed.

(** Whatever happens, a write to [p] changes the file at [p] only and
    keeps the sum of the free room and of the size of that file. *)
Lemma same_but_refl (fs : filesystem) : same_but p fs fs.
Proof. now repeat split. Qed.

Lemma same_but_trans (a b c : filesystem) :
  same_but p a b -> same_but p b c -> same_but p a c.
Proof.
  intros (H1 & H2 & H3) (K1 & K2 & K3). repeat split; congruence.
Qed.

Lemma raw_write_same_but (s : string) (fs fs' : filesystem) (r : result unit) (P : string) :
  raw_write p s fs = (r, P, fs') -> same_but p fs fs'.
Proof.
  unfold raw_write. destruct (Nat.leb_spec (String.length s) (free fs)) as [Hle | Hgt].
  - intros [= <- <- <-]. repeat split; cbn [readonly files].
    + apply update_update.
    + unfold room. rewrite content_update. cbn [free]. rewrite length_append. lia.
  - intros [= <- <- <-]. repeat split; cbn [readonly files].
    + apply update_update.
    + unfold room. rewrite content_update. cbn [free].
      rewrite length_append, take_length by lia. lia.
Qed.

Lemma write_same_but (pending s : string) (fs fs' : filesystem) (r : result unit)
      (P : string) :
  write p pending s fs = (r, P, fs') -> same_but p fs fs'.
Proof.
  unfold write. destruct (Nat.leb (String.length (pending ++ s)) buffer_size).
  - intros [= <- <- <-]. apply same_but_refl.
  - apply raw_write_same_but.
Qed.

Lemma write_lines_same_but (objs : list json) :
  forall pending fs fs' r P,
    write_lines p objs pending fs = (r, P, fs') -> same_but p fs fs'.
Proof.
  induction objs as [| o objs IH]; intros pending fs fs' r P; cbn [write_lines].
  - intros [= <- <- <-]. apply same_but_refl.
  - destruct (write p pending (json_dumps o ++ nl) fs) as [[[[] | e] P1] fs1] eqn:E.
    + intros H. eapply same_but_trans; [eapply write_same_but; exact E | eapply IH; exact H].
    + intros [= <- <- <-]. eapply write_same_but; exact E.
Qed.

Lemma close_same_but (pending : string) (fs fs' : filesystem) (r : result unit) :
  close p pending fs = (r, fs') -> same_but p fs fs'.
Proof.
  unfold close. destruct (raw_write p pending fs) as [[r' P] fs1] eqn:E.
  intros [= <- <-]. eapply raw_write_same_but. exact E.
Qed.

Lemma open_wt_same_but (fs fs' : filesystem) (r : result unit) :
  open_wt p fs = (r, fs') -> same_but p fs fs'.
Proof.
  unfold open_wt. destruct (existsb (String.eqb p) (readonly fs)).
  - intros [= <- <-]. apply same_but_refl.
  - intros [= <- <-]. repeat split; cbn [readonly files].
    + apply update_update.
    + unfold room. rewrite content_update. cbn [free String.length]. unfold room. lia.
Qed.

(** Opening for writing forgets what earlier writes to [p] did. *)
Lemma open_wt_absorbs (fs fs' : filesystem) :
  same_but p fs fs' -> open_wt p fs' = 
    match open_wt p fs with
    | (Ok u, ft) => (Ok u, ft)
    | (Raise e, _) => (Raise e, fs')
    end.
Proof.
  intros (Hro & Hup & Hroom). unfold open_wt. rewrite Hro.
  destruct (existsb (String.eqb p) (readonly fs)); [reflexivity |].
  unfold room in Hroom. now rewrite Hup, Hroom.
Qed.

Lemma same_but_lookup (fs fs' : filesystem) (q : string) :
  same_but p fs fs' -> p <> q -> lookup (files fs') q = lookup (files fs) q.
Proof.
  intros (_ & Hup & _) Hpq.
  rewrite <- (lookup_update_other (files fs') p q EmptyString Hpq), Hup.
  now apply lookup_update_other.
Qed.

Lemma write_jsonl_same_but (objs : list json) (fs fs' : filesystem) (r : result unit) :
  write_jsonl p objs fs = (r, fs') -> same_but p fs fs'.
Proof.
  unfold write_jsonl, io_bind. destruct (open_wt p fs) as [[[] | e] ft] eqn:E.
  - destruct (write_lines p objs EmptyString ft) as [[body P] fs1] eqn:Hbody.
    destruct (close p P fs1) as [closed fs2] eqn:Hclose.
    intros H.
    assert (Hfs : fs2 = fs') by (destruct body, closed; now injection H). subst fs2.
    eapply same_but_trans; [eapply open_wt_same_but; exact E |].
    eapply same_but_trans; [eapply write_lines_same_but; exact Hbody |].
    eapply close_same_but; exact Hclose.
  - intros [= <- <-]. eapply open_wt_same_but; exact E.
Qed.

Lemma open_wt_writable (fs : filesystem) :
  writable fs p = true ->
  open_wt p fs = (Ok tt, mkfs (update (files fs) p EmptyString) (readonly fs) (room fs p)).
Proof.
  unfold writable, open_wt, room. intros H. apply negb_true_iff in H. now rewrite H.
Qed.

Lemma open_wt_readonly (fs : filesystem) :
  writable fs p = false -> open_wt p fs = (Raise OSError, fs).
Proof.
  unfold writable, open_wt. intros H. apply negb_false_iff in H. now rewrite H.
Qed.

(** The text fits: all of it is in the file when the file is closed. *)
Lemma write_jsonl_fits (objs : list json) (fs : filesystem) :
  writable fs p = true ->
  String.length (text_of objs) <= room fs p ->
  write_jsonl p objs fs
  = (Ok tt, mkfs (update (files fs) p (text_of objs)) (readonly fs)
                 (room fs p - String.length (text_of objs))).
Proof.
  intros Hw Hfit. unfold write_jsonl, io_bind. rewrite (open_wt_writable fs Hw).
  destruct (write_lines_spec objs EmptyString
              (mkfs (update (files fs) p EmptyString) (readonly fs) (room fs p))
              EmptyString (lookup_update_same _ _ _))
    as [(W & P & HWP & HW & Hrun) | (Hover & _)];
    cbn [files free readonly String.append] in *; [| lia].
  rewrite Hrun. unfold close, raw_write. cbn [files free readonly].
  rewrite !update_update, content_update.
  assert (Hlen : String.length P <= room fs p - String.length W)
    by (rewrite <- HWP, length_append in Hfit; lia).
  apply Nat.leb_le in Hlen. rewrite Hlen, HWP. do 2 f_equal.
  rewrite <- HWP, length_append. lia.
Qed.

(** The text does not fit: the file is left with the first characters of
    the text, as many as there was room for. *)
Lemma write_jsonl_overflow (objs : list json) (fs : filesystem) :
  writable fs p = true ->
  room fs p < String.length (text_of objs) ->
  write_jsonl p objs fs
  = (Raise OSError,
     mkfs (update (files fs) p (take (room fs p) (text_of objs))) (readonly fs) 0).
Proof.
  intros Hw Hover. unfold write_jsonl, io_bind. rewrite (open_wt_writable fs Hw).
  destruct (write_lines_spec objs EmptyString
              (mkfs (update (files fs) p EmptyString) (readonly fs) (room fs p))
              EmptyString (lookup_update_same _ _ _))
    as [(W & P & HWP & HW & Hrun) | (_ & P & HP & Hrun)];
    cbn [files free readonly String.append] in *; rewrite Hrun;
    unfold close, raw_write; cbn [files free readonly];
    rewrite !update_update, content_update.
  - assert (Hlen : Nat.leb (String.length P) (room fs p - String.length W) = false)
      by (apply Nat.leb_gt; rewrite <- HWP, length_append in Hover; lia).
    rewrite Hlen, <- HWP. do 3 f_equal.
    replace (room fs p) with (String.length W + (room fs p - String.length W)) at 2 by lia.
    now rewrite take_append_r.
  - destruct P as [| c P]; [contradiction |]. cbn [String.length Nat.leb take].
    now rewrite append_nil_r.
Qed.
End Writing.

(** ** The whole run *)

Lemma convert_to_jsonl_unfold (data_path output_path : string) (fs : filesystem) :
  convert_to_jsonl data_path output_path fs
  = match lookup (files fs) data_path with
    | None => (Raise FileNotFoundError, fs)
    | Some text =>
        match json_loads text with
        | Raise e => (Raise e, fs)
        | Ok data =>
            match convert_data data with
            | Raise e => (Raise e, fs)
            | Ok json_objs =>
                match write_jsonl output_path json_objs fs with
                | (Ok _, fs') => (Ok json_objs, fs')
                | (Raise e, fs') => (Raise e, fs')
                end
            end
        end
    end.
Proof.
  unfold convert_to_jsonl, io_bind, read_text, pure, io_ret.
  destruct (lookup (files fs) data_path) as [text |]; [| reflexivity].
  destruct (json_loads text) as [data | e]; [| reflexivity].
  destruct (convert_data data) as [objs | e]; reflexivity.
Qed.

(** A readable and decodable source, records that convert, an output that
    can be opened and room for the lines: the run returns the records and
    leaves their lines in the output file. *)
Lemma convert_to_jsonl_success
      (data_path output_path text : string) (data : json) (objs : list json)
      (fs : filesystem) :
  lookup (files fs) data_path = Some text ->
  json_loads text = Ok data ->
  convert_data data = Ok objs ->
  writable fs output_path = true ->
  String.length (text_of objs) <= room fs output_path ->
  convert_to_jsonl data_path output_path fs
  = (Ok objs, mkfs (update (files fs) output_path (text_of objs)) (readonly fs)
                   (room fs output_path - String.length (text_of objs))).
Proof.
  intros Hread Hload Hconv Hw Hfit.
  rewrite convert_to_jsonl_unfold, Hread, Hload, Hconv.
  now rewrite (write_jsonl_fits output_path objs fs Hw Hfit).
Qed.

(** ** Encoding, then decoding *)

(** The decoder reads an escaped character back. *)
Lemma scanstring_escape_char (c : ascii) (t : string) :
  scanstring (escape_char c ++ t) = push c (scanstring t).
Proof.
  destruct c as [[] [] [] [] [] [] [] []]; reflexivity.
Qed.

Lemma scanstring_escape (s rest : string) :
  scanstring (escape s ++ String dquote rest) = Ok (s, rest).
Proof.
  induction s as [| c s IH]; [reflexivity |].
  cbn [escape]. rewrite append_assoc, scanstring_escape_char, IH. reflexivity.
Qed.

Lemma escape_char_no_newline (c : ascii) : contains newline (escape_char c) = false.
Proof.
  destruct c as [[] [] [] [] [] [] [] []]; reflexivity.
Qed.

Lemma escape_no_newline (s : string) : contains newline (escape s) = false.
Proof.
  induction s as [| c s IH]; [reflexivity |].
  cbn [escape]. now rewrite contains_append, escape_char_no_newline, IH.
Qed.

Lemma dumps_example (p c : string) :
  json_dumps (example p (JStr c))
  = String "{" (String dquote ("input" ++ String dquote (": " ++ String dquote
      (escape p ++ String dquote (", " ++ String dquote ("output" ++ String dquote
         (": " ++ String dquote (escape c ++ String dquote "}")))))))).
Proof.
  unfold example. cbn. unfold encode_basestring_ascii.
  rewrite !append_assoc. cbn. rewrite !append_assoc. reflexivity.
Qed.

Lemma scan_record_text (ep ec p c : string) (fuel : nat) :
  4 <= fuel ->
  (forall rest, scanstring (ep ++ String dquote rest) = Ok (p, rest)) ->
  (forall rest, scanstring (ec ++ String dquote rest) = Ok (c, rest)) ->
  scan_once fuel
    (String "{" (String dquote ("input" ++ String dquote (": " ++ String dquote
      (ep ++ String dquote (", " ++ String dquote ("output" ++ String dquote
         (": " ++ String dquote (ec ++ String dquote "}")))))))))
  = Ok (example p (JStr c), EmptyString).
Proof.
  intros Hfuel Hp Hc. do 4 (destruct fuel as [| fuel]; [lia |]).
  cbn. rewrite Hp. cbn. rewrite Hc. reflexivity.
Qed.

Lemma loads_dumps_example (p c : string) :
  json_loads (json_dumps (example p (JStr c))) = Ok (example p (JStr c)).
Proof.
  rewrite dumps_example. unfold json_loads.
  cbn [String.length String.append skip_ws].
  change (is_ws "{") with false. cbv iota.
  rewrite (scan_record_text (escape p) (escape c) p c);
    [reflexivity | lia | apply scanstring_escape | apply scanstring_escape].
Qed.

Lemma dumps_example_no_newline (p c : string) :
  contains newline (json_dumps (example p (JStr c))) = false.
Proof.
  rewrite dumps_example. cbn [String.append contains].
  repeat (rewrite ?contains_append, ?escape_no_newline; cbn [contains]).
  reflexivity.
Qed.

Lemma split_lines_line (l rest : string) :
  contains newline l = false -> split_lines (l ++ nl ++ rest) = l :: split_lines rest.
Proof.
  induction l as [| x l IH]; intros H.
  - reflexivity.
  - cbn [contains] in H. apply orb_false_elim in H as [Hx Hl].
    cbn [String.append split_lines]. rewrite Ascii.eqb_sym, Hx.
    fold (String.append l (nl ++ rest)). now rewrite (IH Hl).
Qed.

Lemma split_lines_text (objs : list json) :
  Forall (fun o => contains newline (json_dumps o) = false) objs ->
  split_lines (text_of objs) = map json_dumps objs.
Proof.
  induction 1 as [| o objs Ho _ IH]; [reflexivity |].
  rewrite text_of_cons, append_assoc, (split_lines_line _ _ Ho), IH. reflexivity.
Qed.

(** ** The decoder never runs out of fuel *)














(** ** The exceptions of the decoder *)





(** ** The keys of a decoded object are distinct *)

Lemma dict_set_keys (m : dict) (k : string) (v : json) (k' : string) :
  In k' (map fst (dict_set m k v)) -> k' = k \/ In k' (map fst m).
Proof.
  induction m as [| [k0 v0] m IH]; simpl.
  - intros [<- | []]. now left.
  - destruct (String.eqb k0 k); simpl; intros [<- | H]; auto.
    destruct (IH H); auto.
Qed.

Lemma dict_set_nodup (m : dict) (k : string) (v : json) :
  NoDup (map fst m) -> NoDup (map fst (dict_set m k v)).
Proof.
  induction m as [| [k0 v0] m IH]; simpl; intros Hnd.
  - repeat constructor. intros [].
  - inversion Hnd as [| ? ? Hnotin Hnd']; subst.
    destruct (String.eqb_spec k0 k) as [-> | Hneq]; simpl.
    + now constructor.
    + constructor; [| now apply IH].
      intros Hin. apply dict_set_keys in Hin as [-> | Hin]; [now apply Hneq | contradiction].
Qed.

Lemma decoder_keys (fuel : nat) :
  (forall s m rest, scan_once fuel s = Ok (JObj m, rest) -> NoDup (map fst m))
  /\ (forall s acc m rest, NoDup (map fst acc) ->
        parse_object fuel s acc = Ok (JObj m, rest) -> NoDup (map fst m))
  /\ (forall s acc v rest, parse_array fuel s acc = Ok (v, rest) -> exists l, v = JArr l).
Proof.
  induction fuel as [| f (IHs & IHo & IHa)]; [repeat split; intros; discriminate |].
  split; [| split].
  - intros [| c r] m rest; [discriminate |]. cbn [scan_once].
    destruct (Ascii.eqb c dquote).
    { intros H. apply bind_ok in H as ([t rest'] & _ & H). discriminate. }
    destruct (Ascii.eqb c "{").
    { destruct (skip_ws r) as [| c1 r1]; [discriminate |].
      destruct (Ascii.eqb c1 "}").
      - intros [= <- <-]. constructor.
      - apply IHo. constructor. }
    destruct (Ascii.eqb c "[").
    { destruct (skip_ws r) as [| c1 r1]; [discriminate |].
      destruct (Ascii.eqb c1 "]"); [discriminate |].
      intros H. apply IHa in H as [l H]. discriminate. }
    destruct (strip_prefix "null" (String c r)); [discriminate |].
    destruct (strip_prefix "true" (String c r)); [discriminate |].
    destruct (strip_prefix "false" (String c r)); [discriminate |].
    destruct (strip_prefix "NaN" (String c r)); [discriminate |].
    destruct (strip_prefix "Infinity" (String c r)); [discriminate |].
    destruct (strip_prefix "-Infinity" (String c r)); [discriminate |].
    unfold scan_number.
    destruct (if Ascii.eqb c "-" then (true, r) else (false, String c r)) as [neg s1].
    destruct s1 as [| c1 r1]; [discriminate |].
    destruct (is_digit c1); [| discriminate].
    destruct (if Ascii.eqb c1 "0" then (0%Z, r1) else scan_digits r1 (digit_value c1))
      as [n rest0].
    destruct (float_follows rest0); discriminate.
  - intros [| c r] acc m rest Hnd; [discriminate |]. cbn [parse_object].
    destruct (Ascii.eqb c dquote); [| discriminate].
    intros H. apply bind_ok in H as ([k r1] & _ & H).
    destruct (skip_ws r1) as [| c2 r2]; [discriminate |].
    destruct (Ascii.eqb c2 ":"); [| discriminate].
    apply bind_ok in H as ([x r3] & _ & H).
    destruct (skip_ws r3) as [| c4 r4]; [discriminate |].
    destruct (Ascii.eqb c4 "}"); [injection H as <- <-; now apply dict_set_nodup |].
    destruct (Ascii.eqb c4 ","); [| discriminate].
    revert H. apply IHo. now apply dict_set_nodup.
  - intros s acc v rest. cbn [parse_array].
    intros H. apply bind_ok in H as ([x r1] & _ & H).
    destruct (skip_ws r1) as [| c2 r2]; [discriminate |].
    destruct (Ascii.eqb c2 "]"); [injection H as <- <-; now eexists |].
    destruct (Ascii.eqb c2 ","); [| discriminate].
    revert H. apply IHa.
Qed.

(** The mapping [json_loads] returns has no key twice: the number of its
    keys is the length of [map fst m]. *)
Lemma json_loads_keys (text : string) (m : dict) :
  json_loads text = Ok (JObj m) -> NoDup (map fst m).
Proof.
  unfold json_loads. intros H. apply bind_ok in H as ([v rest] & Hv & H).
  destruct (skip_ws rest); [| discriminate]. injection H as ->.
  revert Hv. apply decoder_keys.
Qed.

(** ** Properties of a run *)

(** What a run on a mapping of valid records returns and leaves. *)
Lemma convert_to_jsonl_valid
      (data_path output_path text : string) (m : dict) (fs : filesystem) :
  lookup (files fs) data_path = Some text ->
  json_loads text = Ok (JObj m) ->
  valid_mapping (JObj m) = true ->
  writable fs output_path = true ->
  output_size (JObj m) <= room fs output_path ->
  exists objs fs',
    convert_to_jsonl data_path output_path fs = (Ok objs, fs')
    /\ content fs' output_path = text_of objs
    /\ Forall2 (fun k o => exists obj prompt a,
                   dict_get m k = Some obj /\ valid_record obj = true
                   /\ convert_record obj = Ok o
                   /\ o = example prompt (JStr a)
                   /\ getitem_str obj "reasoning_required_pred" = Ok (JStr a))
               (map fst m) objs.
Proof.
  intros Hread Hload Hvalid Hw Hroom.
  destruct (convert_data_valid m Hvalid) as (objs & Hconv & Hall).
  unfold output_size in Hroom. rewrite Hconv in Hroom.
  exists objs. eexists. split; [| split].
  - apply (convert_to_jsonl_success _ _ _ _ _ _ Hread Hload Hconv Hw Hroom).
  - apply content_update.
  - exact Hall.
Qed.

Lemma examples_no_newline (ks : list string) (objs : list json)
      (R : string -> json -> Prop) :
  (forall k o, R k o -> exists prompt a, o = example prompt (JStr a)) ->
  Forall2 R ks objs ->
  Forall (fun o => contains newline (json_dumps o) = false) objs.
Proof.
  intros HR. induction 1 as [| k o ks objs Hko _ IH]; constructor; [| exact IH].
  destruct (HR k o Hko) as (prompt & a & ->). apply dumps_example_no_newline.
Qed.

(** C2. On a source file that holds the mapping of the scenario, the run
    returns one record and leaves one line in the output file, the line of
    the specification. *)
Theorem scenario_single_record (data_path output_path : string) (fs : filesystem) :
  lookup (files fs) data_path = Some scenario_text ->
  writable fs output_path = true ->
  String.length scenario_line + 1 <= room fs output_path ->
  json_loads scenario_text = Ok scenario_mapping
  /\ exists fs',
       convert_to_jsonl data_path output_path fs
       = (Ok [example scenario_prompt (JStr "yes")], fs')
       /\ content fs' output_path = scenario_line ++ nl
       /\ split_lines (content fs' output_path) = [scenario_line].
Proof.
  intros Hread Hw Hroom.
  assert (Hload : json_loads scenario_text = Ok scenario_mapping)
    by (vm_compute; reflexivity).
  assert (Hconv : convert_data scenario_mapping
                  = Ok [example scenario_prompt (JStr "yes")])
    by (vm_compute; reflexivity).
  assert (Htext : text_of [example scenario_prompt (JStr "yes")] = scenario_line ++ nl)
    by (vm_compute; reflexivity).
  split; [exact Hload |]. eexists. split; [| split].
  - apply (convert_to_jsonl_success _ _ _ _ _ _ Hread Hload Hconv Hw).
    rewrite Htext, length_append. exact Hroom.
  - rewrite content_update. exact Htext.
  - rewrite content_update, Htext. vm_compute. reflexivity.
Qed.

Lemma scenario_single_record_witness :
  exists fs',
    convert_to_jsonl "pubmedqa/data/test_set.json" "pubmedqa_test.jsonl" scenario_fs
    = (Ok [example scenario_prompt (JStr "yes")], fs')
    /\ content fs' "pubmedqa_test.jsonl" = scenario_line ++ nl
    /\ split_lines (content fs' "pubmedqa_test.jsonl") = [scenario_line].
Proof.
  refine (proj2 (scenario_single_record "pubmedqa/data/test_set.json"
                   "pubmedqa_test.jsonl" scenario_fs eq_refl eq_refl _)).
  apply Nat.leb_le. vm_compute. reflexivity.
Defined.

(** C4. For a mapping of valid records the run returns as many records as
    the mapping has keys, which are distinct, and leaves as many lines; the
    record and the line at a position are those of the key at that
    position of [data.keys()]. *)
Theorem one_line_per_key
        (data_path output_path text : string) (m : dict) (fs : filesystem) :
  lookup (files fs) data_path = Some text ->
  json_loads text = Ok (JObj m) ->
  valid_mapping (JObj m) = true ->
  writable fs output_path = true ->
  output_size (JObj m) <= room fs output_path ->
  exists objs fs',
    convert_to_jsonl data_path output_path fs = (Ok objs, fs')
    /\ NoDup (map fst m)
    /\ length objs = length (map fst m)
    /\ length (split_lines (content fs' output_path)) = length (map fst m)
    /\ split_lines (content fs' output_path) = map json_dumps objs
    /\ Forall2 (fun k o => exists obj, dict_get m k = Some obj /\ convert_record obj = Ok o)
               (map fst m) objs.
Proof.
  intros Hread Hload Hvalid Hw Hroom.
  destruct (convert_to_jsonl_valid _ _ _ _ _ Hread Hload Hvalid Hw Hroom)
    as (objs & fs' & Hrun & Hcontent & Hall).
  assert (Hlen : length objs = length (map fst m))
    by (symmetry; eapply Forall2_length; exact Hall).
  assert (Hlines : split_lines (content fs' output_path) = map json_dumps objs).
  { rewrite Hcontent. apply split_lines_text.
    eapply examples_no_newline; [| exact Hall].
    intros k o (obj & prompt & a & _ & _ & _ & -> & _). now exists prompt, a. }
  exists objs, fs'. repeat split; try assumption.
  - now apply (json_loads_keys text).
  - now rewrite Hlines, length_map.
  - eapply Forall2_impl; [| exact Hall].
    intros k o (obj & prompt & a & Hk & _ & Ho & _). now exists obj.
Qed.

Lemma one_line_per_key_witness :
  exists objs fs',
    convert_to_jsonl "pubmedqa/data/test_set.json" "pubmedqa_test.jsonl" spare_device
    = (Ok objs, fs')
    /\ NoDup ["q1"; "q2"]
    /\ length objs = 2
    /\ length (split_lines (content fs' "pubmedqa_test.jsonl")) = 2
    /\ split_lines (content fs' "pubmedqa_test.jsonl") = map json_dumps objs
    /\ Forall2 (fun k o => exists obj,
                   dict_get two_records_dict k = Some obj /\ convert_record obj = Ok o)
               ["q1"; "q2"] objs.
Proof.
  refine (one_line_per_key "pubmedqa/data/test_set.json" "pubmedqa_test.jsonl"
            two_records_text two_records_dict spare_device eq_refl _ eq_refl eq_refl _).
  - vm_compute. reflexivity.
  - apply Nat.leb_le. vm_compute. reflexivity.
Defined.

(** C9. For a mapping of valid records, every line of the output file
    decodes to a JSON object with the two fields [input] and [output], in
    this order and no other, both of them strings. *)
Theorem output_lines_decode
        (data_path output_path text : string) (m : dict) (fs : filesystem) :
  lookup (files fs) data_path = Some text ->
  json_loads text = Ok (JObj m) ->
  valid_mapping (JObj m) = true ->
  writable fs output_path = true ->
  output_size (JObj m) <= room fs output_path ->
  exists objs fs',
    convert_to_jsonl data_path output_path fs = (Ok objs, fs')
    /\ Forall (fun line => exists input output,
                 json_loads line = Ok (JObj [("input", JStr input); ("output", JStr output)]))
              (split_lines (content fs' output_path)).
Proof.
  intros Hread Hload Hvalid Hw Hroom.
  destruct (convert_to_jsonl_valid _ _ _ _ _ Hread Hload Hvalid Hw Hroom)
    as (objs & fs' & Hrun & Hcontent & Hall).
  assert (Hshape : Forall (fun o => exists prompt a, o = example prompt (JStr a)) objs).
  { clear - Hall. induction Hall as [| k o ks objs Hko _ IH]; constructor; [| exact IH].
    destruct Hko as (obj & prompt & a & _ & _ & _ & -> & _). now exists prompt, a. }
  exists objs, fs'. split; [exact Hrun |].
  rewrite Hcontent, split_lines_text.
  - apply Forall_map. eapply Forall_impl; [| exact Hshape].
    intros o (prompt & a & ->). exists prompt, a. apply loads_dumps_example.
  - eapply Forall_impl; [| exact Hshape].
    intros o (prompt & a & ->). apply dumps_example_no_newline.
Qed.

Lemma output_lines_decode_witness :
  exists objs fs',
    convert_to_jsonl "pubmedqa/data/test_set.json" "pubmedqa_test.jsonl" spare_device
    = (Ok objs, fs')
    /\ Forall (fun line => exists input output,
                 json_loads line = Ok (JObj [("input", JStr input); ("output", JStr output)]))
              (split_lines (content fs' "pubmedqa_test.jsonl")).
Proof.
  refine (output_lines_decode "pubmedqa/data/test_set.json" "pubmedqa_test.jsonl"
            two_records_text two_records_dict spare_device eq_refl _ eq_refl eq_refl _).
  - vm_compute. reflexivity.
  - apply Nat.leb_le. vm_compute. reflexivity.
Defined.

(** C5, as the code has it.  For a mapping of valid records the [output]
    of every record is, verbatim, the value of the field
    [reasoning_required_pred] of the source record.  The name of the field
    is fixed: [convert_to_jsonl] takes the two paths and nothing else. *)
Theorem output_is_reasoning_required_pred
        (data_path output_path text : string) (m : dict) (fs : filesystem) :
  lookup (files fs) data_path = Some text ->
  json_loads text = Ok (JObj m) ->
  valid_mapping (JObj m) = true ->
  writable fs output_path = true ->
  output_size (JObj m) <= room fs output_path ->
  exists objs fs',
    convert_to_jsonl data_path output_path fs = (Ok objs, fs')
    /\ content fs' output_path = text_of objs
    /\ Forall2 (fun k o => exists r prompt completion,
                   dict_get m k = Some (JObj r)
                   /\ dict_get r "reasoning_required_pred" = Some completion
                   /\ o = example prompt completion)
               (map fst m) objs.
Proof.
  intros Hread Hload Hvalid Hw Hroom.
  destruct (convert_to_jsonl_valid _ _ _ _ _ Hread Hload Hvalid Hw Hroom)
    as (objs & fs' & Hrun & Hcontent & Hall).
  exists objs, fs'. repeat split; try assumption.
  eapply Forall2_impl; [| exact Hall].
  intros k o (obj & prompt & a & Hk & _ & _ & -> & Ha).
  destruct obj as [| | | | | r]; try discriminate.
  exists r, prompt, (JStr a). repeat split; try assumption.
  unfold getitem_str in Ha. destruct (dict_get r "reasoning_required_pred"); congruence.
Qed.

Lemma output_is_reasoning_required_pred_witness :
  exists objs fs',
    convert_to_jsonl "pubmedqa/data/test_set.json" "pubmedqa_test.jsonl" two_answers_fs
    = (Ok objs, fs')
    /\ content fs' "pubmedqa_test.jsonl" = text_of objs
    /\ Forall2 (fun k o => exists r prompt completion,
                   dict_get two_answers k = Some (JObj r)
                   /\ dict_get r "reasoning_required_pred" = Some completion
                   /\ o = example prompt completion)
               ["q1"] objs.
Proof.
  refine (output_is_reasoning_required_pred "pubmedqa/data/test_set.json"
            "pubmedqa_test.jsonl" two_answers_text two_answers two_answers_fs
            eq_refl _ eq_refl eq_refl _).
  - vm_compute. reflexivity.
  - apply Nat.leb_le. vm_compute. reflexivity.
Defined.

(** C5, as the specification has it, fails.  The record of
    [two_answers_text] holds ["yes"] in [reasoning_required_pred] and
    ["no"] in [final_decision]: no paths and no file system make the run
    return the record whose [output] is ["no"]. *)
Lemma answer_field_is_not_chosen :
  ~ exists data_path output_path fs fs' prompt,
      lookup (files fs) data_path = Some two_answers_text
      /\ convert_to_jsonl data_path output_path fs
         = (Ok [example prompt (JStr "no")], fs').
Proof.
  intros (data_path & output_path & fs & fs' & prompt & Hread & Hrun).
  rewrite convert_to_jsonl_unfold, Hread in Hrun.
  assert (Hload : json_loads two_answers_text = Ok (JObj two_answers))
    by (vm_compute; reflexivity).
  assert (Hconv : convert_data (JObj two_answers)
                  = Ok [example scenario_prompt (JStr "yes")])
    by (vm_compute; reflexivity).
  rewrite Hload, Hconv in Hrun.
  destruct (write_jsonl output_path _ fs) as [[[] | e] fs1]; discriminate.
Qed.

(** A record that lacks a field it is asked for raises [KeyError]. *)
Lemma convert_record_lacks (r : dict) (f : string) :
  lacks r f -> convert_record (JObj r) = Raise (KeyError (KStr f)).
Proof.
  intros [Hq | q Hq Hl | q labels item items Hq Hl Hit Hc | prompt Hp Ha];
    unfold convert_record.
  - unfold form_question, getitem_str. now rewrite Hq.
  - unfold form_question, getitem_str. rewrite Hq, Hl. reflexivity.
  - unfold form_question. unfold getitem_str at 1 2. rewrite Hq, Hl.
    cbn [bind]. rewrite Hit. cbn [bind enumerate length seq combine form_contexts].
    unfold getitem_str. now rewrite Hc.
  - rewrite Hp. cbn [bind getitem_str]. now rewrite Ha.
Qed.

(** C6, as the code has it.  When the records before it are converted, a
    record makes the run fail with [KeyError] on the field, and no file is
    touched, if it lacks the question; or has a question and lacks the
    labels; or has a question and labels to iterate over, at least one, and
    lacks the contexts; or has a prompt that is built and lacks the
    answer.  A record with a question, labels that hold nothing to iterate
    over and an answer is converted, to the prompt without contexts and
    the answer, whether it has contexts or not. *)
Theorem missing_field_error :
  (forall (data_path output_path text : string) (m : dict) (fs : filesystem)
          (pre : list string) (done : list json) (k : string) (post : list string)
          (r : dict) (f : string),
      lookup (files fs) data_path = Some text ->
      json_loads text = Ok (JObj m) ->
      map fst m = (pre ++ k :: post)%list ->
      Forall2 (converts (JObj m)) pre done ->
      dict_get m k = Some (JObj r) ->
      lacks r f ->
      convert_to_jsonl data_path output_path fs = (Raise (KeyError (KStr f)), fs))
  /\ (forall (r : dict) (q labels a : json),
         dict_get r "QUESTION" = Some q ->
         dict_get r "LABELS" = Some labels ->
         iter labels = Ok [] ->
         dict_get r "reasoning_required_pred" = Some a ->
         convert_record (JObj r)
         = Ok (example ("QUESTION:" ++ str q ++ nl ++ "CONTEXT: " ++ instruction_suffix) a)).
Proof.
  split.
  - intros data_path output_path text m fs pre done k post r f
           Hread Hload Hkeys Hpre Hk Hlacks.
    rewrite convert_to_jsonl_unfold, Hread, Hload.
    unfold convert_data. cbn [keys bind]. rewrite Hkeys.
    rewrite (convert_keys_raise (JObj m) pre done k post (JObj r) (KeyError (KStr f)));
      try assumption; try reflexivity.
    + unfold getitem_str. now rewrite Hk.
    + now apply convert_record_lacks.
  - intros r q labels a Hq Hl Hit Ha.
    unfold convert_record, form_question, getitem_str.
    rewrite Hq. cbn [bind]. rewrite Hl. cbn [bind]. rewrite Hit.
    cbn [bind enumerate length seq combine form_contexts]. rewrite Ha. cbn [bind].
    do 2 f_equal. cbn [String.append]. now rewrite !append_assoc.
Qed.

Lemma missing_field_error_witness :
  convert_to_jsonl "pubmedqa/data/test_set.json" "pubmedqa_test.jsonl" no_answer_fs
  = (Raise (KeyError (KStr "reasoning_required_pred")), no_answer_fs)
  /\ convert_record (JObj no_contexts)
     = Ok (example ("QUESTION:" ++ str (JStr "Is X true?") ++ nl ++ "CONTEXT: "
                    ++ instruction_suffix) (JStr "yes")).
Proof.
  split.
  - refine (proj1 missing_field_error
              "pubmedqa/data/test_set.json" "pubmedqa_test.jsonl"
              no_answer_text no_answer_mapping no_answer_fs
              ["q1"] [example scenario_prompt (JStr "yes")] "q2" [] no_answer
              "reasoning_required_pred" eq_refl _ eq_refl _ eq_refl _).
    + vm_compute. reflexivity.
    + constructor; [| constructor]. exists (JObj scenario_record).
      split; vm_compute; reflexivity.
    + apply (lacks_answer no_answer
               ("QUESTION:Is Y true?" ++ nl ++ "CONTEXT: Evidence B" ++ nl
                ++ instruction_suffix)); vm_compute; reflexivity.
  - apply (proj2 missing_field_error no_contexts (JStr "Is X true?") (JArr []) (JStr "yes"));
      reflexivity.
Defined.

(** C6, as the specification has it, fails.  The record of
    [no_contexts_text] has no contexts; its labels are empty, the contexts
    are never looked up, and the run returns a record. *)
Lemma missing_contexts_is_not_an_error :
  json_loads no_contexts_text = Ok (JObj [("q1", JObj no_contexts)])
  /\ dict_get no_contexts "CONTEXTS" = None
  /\ exists fs',
       convert_to_jsonl "pubmedqa/data/test_set.json" "pubmedqa_test.jsonl" no_contexts_fs
       = (Ok [example ("QUESTION:Is X true?" ++ nl ++ "CONTEXT: " ++ instruction_suffix)
                      (JStr "yes")], fs').
Proof.
  split; [vm_compute; reflexivity |]. split; [reflexivity |].
  eexists. vm_compute. reflexivity.
Qed.




(** C10. A second run on the files the first run left, with a source that
    is not the output, returns what the first run returned, be it the
    records or an exception, and leaves every file as the first run left
    it. *)
Theorem rerun_is_identical
        (data_path output_path : string) (fs fs1 : filesystem)
        (res : result (list json)) :
  data_path <> output_path ->
  convert_to_jsonl data_path output_path fs = (res, fs1) ->
  convert_to_jsonl data_path output_path fs1 = (res, fs1).
Proof.
  intros Hneq. rewrite !convert_to_jsonl_unfold.
  destruct (lookup (files fs) data_path) as [text |] eqn:Hread;
    [| intros [= <- <-]; now rewrite Hread].
  destruct (json_loads text) as [data | e] eqn:Hload;
    [| intros [= <- <-]; now rewrite Hread, Hload].
  destruct (convert_data data) as [objs | e] eqn:Hconv;
    [| intros [= <- <-]; now rewrite Hread, Hload, Hconv].
  destruct (write_jsonl output_path objs fs) as [r fs2] eqn:Hrun.
  intros H.
  assert (Hfs : fs2 = fs1) by (destruct r; now injection H). subst fs2.
  pose proof (write_jsonl_same_but _ _ _ _ _ Hrun) as Hsame.
  rewrite (same_but_lookup output_path fs fs1 data_path Hsame) by congruence.
  rewrite Hread, Hload, Hconv.
  assert (Hagain : write_jsonl output_path objs fs1 = (r, fs1)).
  { revert Hrun. unfold write_jsonl, io_bind.
    rewrite (open_wt_absorbs output_path fs fs1 Hsame).
    destruct (open_wt output_path fs) as [[[] | e] ft]; [trivial |].
    now intros [= <- <-]. }
  now rewrite Hagain.
Qed.

Lemma rerun_is_identical_witness :
  convert_to_jsonl "pubmedqa/data/test_set.json" "pubmedqa_test.jsonl"
    (snd (convert_to_jsonl "pubmedqa/data/test_set.json" "pubmedqa_test.jsonl" spare_device))
  = (fst (convert_to_jsonl "pubmedqa/data/test_set.json" "pubmedqa_test.jsonl" spare_device),
     snd (convert_to_jsonl "pubmedqa/data/test_set.json" "pubmedqa_test.jsonl" spare_device)).
Proof.
  apply (rerun_is_identical "pubmedqa/data/test_set.json" "pubmedqa_test.jsonl"
           spare_device).
  - discriminate.
  - apply surjective_pairing.
Defined.


(** * Any value, written and read *)

(** ** Integers, written and read *)

Lemma delimited_not_digit (rest : string) :
  delimited rest = true ->
  float_follows rest = false
  /\ forall acc, scan_digits rest acc = (acc, rest).
Proof.
  destruct rest as [| c r]; [now split |]. cbn [delimited].
  destruct c as [[] [] [] [] [] [] [] []]; try discriminate; intros _;
    (split; [destruct r; reflexivity | reflexivity]).
Qed.

Lemma scan_digits_uint (d : Decimal.uint) (rest : string) :
  delimited rest = true ->
  forall p, scan_digits (NilEmpty.string_of_uint d ++ rest) (Z.pos p)
            = (Z.pos (Pos.of_uint_acc d p), rest).
Proof.
  intros Hrest.
  induction d as [| d IH | d IH | d IH | d IH | d IH | d IH | d IH | d IH | d IH | d IH];
    intros p; cbn [NilEmpty.string_of_uint String.append Pos.of_uint_acc];
    [now apply delimited_not_digit | ..];
    cbn [scan_digits];
    match goal with
    | |- context [is_digit ?c] => change (is_digit c) with true; cbv iota
    end;
    rewrite <- IH; f_equal; match goal with |- context [digit_value ?c] => let v := eval vm_compute in (digit_value c) in change (digit_value c) with v end; lia.
Qed.

Lemma to_uint_head (p : positive) (l : Decimal.uint) : Pos.to_uint p <> Decimal.D0 l.
Proof.
  intros Hl.
  assert (Hnorm : Decimal.unorm (Pos.to_uint p) = Pos.to_uint p).
  { rewrite <- DecimalPos.Unsigned.to_of, DecimalPos.Unsigned.of_to. reflexivity. }
  rewrite Hl in Hnorm. unfold Decimal.unorm in Hnorm.
  destruct (Decimal.nzhead (Decimal.D0 l)) eqn:E;
    try (apply (DecimalFacts.nzhead_nonzero (Decimal.D0 l) l); congruence).
  apply (DecimalPos.Unsigned.to_uint_nonzero p). rewrite Hl. symmetry. exact Hnorm.
Qed.

(** The digits of a positive number are read back as the number. *)
Lemma scan_number_pos (p : positive) (rest : string) (negative : bool) :
  delimited rest = true ->
  exists c r,
    NilEmpty.string_of_uint (Pos.to_uint p) ++ rest = String c r
    /\ is_digit c = true
    /\ (let '(n, rest') :=
          if Ascii.eqb c "0" then (0%Z, r) else scan_digits r (digit_value c) in
        if float_follows rest' then Raise Unmodelled
        else Ok (JInt (if negative then - n else n)%Z, rest'))
       = Ok (JInt (if negative then Z.neg p else Z.pos p), rest).
Proof.
  intros Hrest.
  pose proof (DecimalPos.Unsigned.of_to p) as Hof.
  pose proof (to_uint_head p) as Hhead.
  pose proof (DecimalPos.Unsigned.to_uint_nonnil p) as Hnil.
  destruct (delimited_not_digit rest Hrest) as [Hfloat _].
  destruct (Pos.to_uint p) as [| d | d | d | d | d | d | d | d | d | d];
    [contradiction | now destruct (Hhead d) | ..];
    cbn [NilEmpty.string_of_uint String.append]; do 2 eexists;
    (split; [reflexivity |]); (split; [reflexivity |]);
    match goal with
    | |- context [Ascii.eqb ?c "0"] => change (Ascii.eqb c "0") with false; cbv iota
    end;
    match goal with
    | |- context [digit_value ?c] =>
        let v := eval vm_compute in (digit_value c) in change (digit_value c) with v
    end;
    rewrite (scan_digits_uint d rest Hrest); rewrite Hfloat;
    cbn [Pos.of_uint] in Hof; injection Hof as ->; destruct negative; reflexivity.
Qed.

Lemma scan_once_digit (c : ascii) (r : string) (f : nat) :
  is_digit c = true ->
  scan_once (S f) (String c r)
  = (let '(n, rest') :=
       if Ascii.eqb c "0" then (0%Z, r) else scan_digits r (digit_value c) in
     if float_follows rest' then Raise Unmodelled else Ok (JInt n, rest')).
Proof.
  destruct c as [[] [] [] [] [] [] [] []]; try discriminate; intros _; reflexivity.
Qed.

Lemma scan_once_minus (c : ascii) (r : string) (f : nat) :
  is_digit c = true ->
  scan_once (S f) (String "-" (String c r))
  = (let '(n, rest') :=
       if Ascii.eqb c "0" then (0%Z, r) else scan_digits r (digit_value c) in
     if float_follows rest' then Raise Unmodelled else Ok (JInt (- n)%Z, rest')).
Proof.
  destruct c as [[] [] [] [] [] [] [] []]; try discriminate; intros _; reflexivity.
Qed.

Lemma decimal_pos (p : positive) :
  decimal (Z.pos p) = NilEmpty.string_of_uint (Pos.to_uint p).
Proof.
  unfold decimal. cbn [Z.to_int NilZero.string_of_int NilZero.string_of_uint].
  pose proof (DecimalPos.Unsigned.to_uint_nonnil p). now destruct (Pos.to_uint p).
Qed.

Lemma decimal_neg (p : positive) :
  decimal (Z.neg p) = String "-" (NilEmpty.string_of_uint (Pos.to_uint p)).
Proof.
  unfold decimal. cbn [Z.to_int NilZero.string_of_int NilZero.string_of_uint].
  pose proof (DecimalPos.Unsigned.to_uint_nonnil p). now destruct (Pos.to_uint p).
Qed.

(** [json.loads(str(n))] is [n]. *)
Lemma scan_once_decimal (n : Z) (f : nat) (rest : string) :
  delimited rest = true ->
  scan_once (S f) (decimal n ++ rest) = Ok (JInt n, rest).
Proof.
  intros Hrest. destruct n as [| p | p].
  - change (decimal 0) with "0". cbn [String.append].
    rewrite scan_once_digit by reflexivity. cbn.
    now destruct (delimited_not_digit rest Hrest) as [-> _].
  - rewrite decimal_pos.
    destruct (scan_number_pos p rest false Hrest) as (c & r & -> & Hc & Hscan).
    rewrite scan_once_digit by exact Hc. exact Hscan.
  - rewrite decimal_neg. cbn [String.append].
    destruct (scan_number_pos p rest true Hrest) as (c & r & -> & Hc & Hscan).
    rewrite scan_once_minus by exact Hc. exact Hscan.
Qed.

(** ** Values, written and read *)

Lemma digit_is_plain (c : ascii) :
  is_digit c = true ->
  is_ws c = false /\ Ascii.eqb c "]" = false /\ Ascii.eqb c "}" = false.
Proof.
  destruct c as [[] [] [] [] [] [] [] []]; try discriminate; intros _; repeat split.
Qed.

(** The text of a value starts with a character that is neither white
    space nor a closing bracket. *)
Lemma dumps_head (v : json) :
  exists c r, json_dumps v = String c r
         /\ is_ws c = false /\ Ascii.eqb c "]" = false /\ Ascii.eqb c "}" = false.
Proof.
  destruct v as [| [] | [| p | p] | s | l | m]; cbn [json_dumps];
    try (do 2 eexists; split; [reflexivity | repeat split]).
  rewrite decimal_pos.
  destruct (scan_number_pos p EmptyString false eq_refl) as (c & r & Hcr & Hc & _).
  rewrite append_nil_r in Hcr. exists c, r. split; [exact Hcr |].
  now apply digit_is_plain.
Qed.

Lemma skip_ws_dumps (v : json) (rest : string) :
  skip_ws (json_dumps v ++ rest) = json_dumps v ++ rest.
Proof.
  destruct (dumps_head v) as (c & r & -> & Hws & _).
  cbn [String.append skip_ws]. now rewrite Hws.
Qed.

Lemma concat_cons2 (sep a b : string) (l : list string) :
  String.concat sep (a :: b :: l) = a ++ sep ++ String.concat sep (b :: l).
Proof. reflexivity. Qed.

Lemma skip_ws_space (s : string) : skip_ws (String " " s) = skip_ws s.
Proof. reflexivity. Qed.

Lemma skip_ws_newline (s : string) : skip_ws (String newline s) = skip_ws s.
Proof. reflexivity. Qed.

Lemma skip_ws_plain (c : ascii) (s : string) :
  is_ws c = false -> skip_ws (String c s) = String c s.
Proof. intros H. cbn [skip_ws]. now rewrite H. Qed.

Lemma skip_ws_concat (y : json) (l : list json) (rest : string) :
  skip_ws (String.concat ", " (map json_dumps (y :: l)) ++ rest)
  = String.concat ", " (map json_dumps (y :: l)) ++ rest.
Proof.
  destruct l as [| z l]; cbn [map].
  - apply skip_ws_dumps.
  - rewrite concat_cons2, append_assoc. apply skip_ws_dumps.
Qed.

Lemma parse_array_dumps (l : list json) :
  Forall decodes l ->
  forall x acc f rest,
    decodes x -> wf x = true -> forallb wf l = true ->
    list_sum (map (fun y => S (size y)) (x :: l)) <= f ->
    parse_array f (String.concat ", " (map json_dumps (x :: l)) ++ String "]" rest) acc
    = Ok (JArr (acc ++ x :: l), rest).
Proof.
  induction 1 as [| y l Hy _ IH]; intros x acc f rest Hx Hwx Hwl Hf.
  - cbn [map list_sum fold_right] in Hf. destruct f as [| f]; [lia |].
    cbn [map String.concat parse_array].
    rewrite (Hx Hwx f (String "]" rest)) by (reflexivity || lia).
    cbn [bind]. rewrite skip_ws_plain by reflexivity. reflexivity.
  - cbn [map list_sum fold_right] in Hf. destruct f as [| f]; [lia |].
    cbn [forallb] in Hwl. apply andb_prop in Hwl as [Hwy Hwl].
    cbn [map]. rewrite concat_cons2, !append_assoc.
    cbn [parse_array].
    rewrite (Hx Hwx f) by (reflexivity || lia).
    cbn [bind String.append]. rewrite skip_ws_plain by reflexivity.
    change (Ascii.eqb "," "]") with false. change (Ascii.eqb "," ",") with true. cbv iota.
    rewrite skip_ws_space.
    change (json_dumps y :: map json_dumps l) with (map json_dumps (y :: l)).
    rewrite skip_ws_concat.
    rewrite (IH y (acc ++ [x])%list f rest Hy Hwy Hwl).
    + now rewrite <- app_assoc.
    + cbn [map list_sum fold_right]. lia.
Qed.

(** ** Objects *)

Lemma existsb_app_false (k : string) (l1 l2 : list string) :
  existsb (String.eqb k) (l1 ++ l2) = false ->
  existsb (String.eqb k) l1 = false /\ existsb (String.eqb k) l2 = false.
Proof. rewrite existsb_app. apply orb_false_elim. Qed.

Lemma distinct_middle (l1 : list string) (k : string) (l2 : list string) :
  distinct (l1 ++ k :: l2) = true -> existsb (String.eqb k) l1 = false.
Proof.
  induction l1 as [| a l1 IH]; [reflexivity |]. cbn [app distinct existsb].
  intros H. apply andb_prop in H as [Ha H]. apply negb_true_iff in Ha.
  apply existsb_app_false in Ha as [_ Ha]. cbn [existsb] in Ha.
  apply orb_false_elim in Ha as [Ha _].
  rewrite String.eqb_sym, Ha. cbn [orb]. now apply IH.
Qed.

Lemma dict_set_fresh (acc : dict) (k : string) (x : json) :
  existsb (String.eqb k) (map fst acc) = false ->
  dict_set acc k x = (acc ++ [(k, x)])%list.
Proof.
  induction acc as [| [k' x'] acc IH]; [reflexivity |]. cbn [map fst existsb dict_set app].
  intros H. apply orb_false_elim in H as [Hk H].
  rewrite String.eqb_sym, Hk. now rewrite IH.
Qed.

Lemma member_text (k : string) (x : json) (rest : string) :
  member (k, x) ++ rest
  = String dquote (escape k ++ String dquote (String ":" (String " " (json_dumps x ++ rest)))).
Proof.
  unfold member, encode_basestring_ascii. cbn [String.append].
  now rewrite !append_assoc.
Qed.

Lemma skip_ws_members (kv : string * json) (m : dict) (rest : string) :
  skip_ws (String.concat ", " (map member (kv :: m)) ++ rest)
  = String.concat ", " (map member (kv :: m)) ++ rest.
Proof.
  destruct kv as [k x].
  destruct m as [| kv' m]; cbn [map String.concat].
  - now rewrite member_text.
  - rewrite append_assoc, member_text. reflexivity.
Qed.

Lemma parse_object_dumps (m : dict) :
  Forall (fun kv => decodes (snd kv)) m ->
  forall k x acc f rest,
    decodes x -> wf x = true ->
    forallb (fun kv => let '(_, y) := kv in wf y) m = true ->
    distinct (map fst (acc ++ (k, x) :: m)) = true ->
    list_sum (map (fun kv => let '(_, y) := kv in S (size y)) ((k, x) :: m)) <= f ->
    parse_object f (String.concat ", " (map member ((k, x) :: m)) ++ String "}" rest) acc
    = Ok (JObj (acc ++ (k, x) :: m), rest).
Proof.
  induction 1 as [| [k' y] m Hy _ IH]; intros k x acc f rest Hx Hwx Hwm Hd Hf.
  - cbn [map list_sum fold_right] in Hf. destruct f as [| f]; [lia |].
    cbn [map String.concat]. rewrite member_text.
    cbn [parse_object]. rewrite Ascii.eqb_refl, scanstring_escape.
    cbn [bind]. rewrite skip_ws_plain by reflexivity.
    rewrite Ascii.eqb_refl, skip_ws_space, skip_ws_dumps.
    rewrite (Hx Hwx f (String "}" rest)) by (reflexivity || lia).
    cbn [bind]. rewrite skip_ws_plain by reflexivity.
    rewrite Ascii.eqb_refl.
    rewrite dict_set_fresh by (rewrite map_app in Hd; exact (distinct_middle _ _ _ Hd)).
    reflexivity.
  - cbn [map list_sum fold_right] in Hf. destruct f as [| f]; [lia |].
    cbn [forallb] in Hwm. apply andb_prop in Hwm as [Hwy Hwm].
    cbn [map]. rewrite concat_cons2, !append_assoc, member_text.
    cbn [parse_object]. rewrite Ascii.eqb_refl, scanstring_escape.
    cbn [bind]. rewrite skip_ws_plain by reflexivity.
    rewrite Ascii.eqb_refl, skip_ws_space, skip_ws_dumps.
    rewrite (Hx Hwx f) by (reflexivity || lia).
    cbn [bind String.append]. rewrite skip_ws_plain by reflexivity.
    change (Ascii.eqb "," "}") with false. change (Ascii.eqb "," ",") with true. cbv iota.
    rewrite skip_ws_space.
    change (member (k', y) :: map member m) with (map member ((k', y) :: m)).
    rewrite skip_ws_members.
    rewrite dict_set_fresh by (rewrite map_app in Hd; exact (distinct_middle _ _ _ Hd)).
    rewrite (IH k' y (acc ++ [(k, x)])%list f rest Hy Hwy Hwm).
    + now rewrite <- app_assoc.
    + now rewrite <- app_assoc.
    + cbn [map list_sum fold_right]. lia.
Qed.

Lemma scan_once_array (f : nat) (s : string) (c1 : ascii) (r1 : string) :
  skip_ws s = String c1 r1 ->
  Ascii.eqb c1 "]" = false ->
  scan_once (S f) (String "[" s) = parse_array f (String c1 r1) [].
Proof. intros Hs Hc. cbn [scan_once]. cbv beta iota. rewrite Hs.
  change (Ascii.eqb "[" dquote) with false. change (Ascii.eqb "[" "{") with false.
  change (Ascii.eqb "[" "[") with true. cbv iota. now rewrite Hc. Qed.

Lemma scan_once_object (f : nat) (s : string) (c1 : ascii) (r1 : string) :
  skip_ws s = String c1 r1 ->
  Ascii.eqb c1 "}" = false ->
  scan_once (S f) (String "{" s) = parse_object f (String c1 r1) [].
Proof. intros Hs Hc. cbn [scan_once]. cbv beta iota. rewrite Hs.
  change (Ascii.eqb "{" dquote) with false. change (Ascii.eqb "{" "{") with true.
  cbv iota. now rewrite Hc. Qed.

Lemma dumps_array (x : json) (l : list json) (rest : string) :
  json_dumps (JArr (x :: l)) ++ rest
  = String "[" (String.concat ", " (map json_dumps (x :: l)) ++ String "]" rest).
Proof. cbn [json_dumps String.append]. now rewrite append_assoc. Qed.

Lemma dumps_object (kv : string * json) (m : dict) (rest : string) :
  json_dumps (JObj (kv :: m)) ++ rest
  = String "{" (String.concat ", " (map member (kv :: m)) ++ String "}" rest).
Proof. cbn [json_dumps String.append]. now rewrite append_assoc. Qed.

(** The decoder reads the text of a well-formed value back, whatever
    delimiter follows. *)
Lemma scan_once_dumps (v : json) : decodes v.
Proof.
  induction v as [| b | n | s | l IH | m IH] using json_induction;
    intros Hwf f rest Hf Hrest; cbn [size] in Hf;
    (destruct f as [| f]; [lia |]).
  - reflexivity.
  - destruct b; reflexivity.
  - now apply scan_once_decimal.
  - cbn [json_dumps]. unfold encode_basestring_ascii. cbn [String.append].
    rewrite append_assoc. cbn [String.append scan_once].
    now rewrite Ascii.eqb_refl, scanstring_escape.
  - destruct l as [| x l]; [reflexivity |].
    rewrite dumps_array.
    pose proof (skip_ws_concat x l (String "]" rest)) as Hskip.
    destruct (dumps_head x) as (c & r & Hx & _ & Hc & _).
    assert (Hhead : exists r1,
               String.concat ", " (map json_dumps (x :: l)) ++ String "]" rest
               = String c r1).
    { destruct l; cbn [map]; [| rewrite concat_cons2]; cbn [String.concat];
        rewrite Hx; cbn [String.append]; eexists; reflexivity. }
    destruct Hhead as [r1 Hhead].
    rewrite (scan_once_array f _ c r1 (eq_trans Hskip Hhead) Hc), <- Hhead.
    cbn [wf forallb] in Hwf. apply andb_prop in Hwf as [Hwx Hwl].
    inversion IH as [| ? ? Hdx Hdl]; subst.
    apply (parse_array_dumps l Hdl x [] f rest Hdx Hwx Hwl). lia.
  - destruct m as [| [k x] m]; [reflexivity |].
    rewrite dumps_object.
    pose proof (skip_ws_members (k, x) m (String "}" rest)) as Hskip.
    assert (Hhead : exists r1,
               String.concat ", " (map member ((k, x) :: m)) ++ String "}" rest
               = String dquote r1).
    { destruct m; cbn [map]; [| rewrite concat_cons2]; cbn [String.concat];
        unfold member at 1, encode_basestring_ascii; cbn [String.append];
        eexists; reflexivity. }
    destruct Hhead as [r1 Hhead].
    rewrite (scan_once_object f _ dquote r1 (eq_trans Hskip Hhead) eq_refl), <- Hhead.
    cbn [wf] in Hwf. apply andb_prop in Hwf as [Hd Hwm].
    cbn [forallb] in Hwm. apply andb_prop in Hwm as [Hwx Hwm].
    inversion IH as [| ? ? Hdx Hdm]; subst.
    apply (parse_object_dumps m Hdm k x [] f rest Hdx Hwx Hwm Hd). lia.
Qed.

Lemma dumps_nonempty (v : json) : 1 <= String.length (json_dumps v).
Proof. destruct (dumps_head v) as (c & r & -> & _). simpl. lia. Qed.

Lemma concat_length_sum (ss : list string) (ns : list nat) :
  Forall2 (fun n s => n <= S (String.length s)) ns ss ->
  list_sum ns <= String.length (String.concat ", " ss) + 1.
Proof.
  induction 1 as [| n s ns ss Hn Hrest IH]; [cbn; lia |].
  destruct Hrest as [| n' s' ns ss Hn' Hrest].
  - cbn [list_sum fold_right String.concat]. lia.
  - rewrite concat_cons2, !length_append. cbn [list_sum fold_right] in *.
    cbn [String.length]. lia.
Qed.

(** The text of a value is at least as long as the fuel its decoding takes. *)
Lemma size_le_length (v : json) : size v <= String.length (json_dumps v).
Proof.
  induction v as [| b | n | s | l IH | m IH] using json_induction;
    try apply dumps_nonempty.
  - cbn [size json_dumps]. rewrite !length_append. cbn [String.length].
    enough (H : list_sum (map (fun x => S (size x)) l)
                <= String.length (String.concat ", " (map json_dumps l)) + 1)
      by exact (le_n_S _ _ H).
    apply concat_length_sum. clear - IH.
    induction IH as [| x l Hx _ IHl]; cbn [map]; constructor; [| exact IHl].
    lia.
  - cbn [size json_dumps]. rewrite !length_append. cbn [String.length].
    change (fun kv : string * json =>
              let '(k, x) := kv in encode_basestring_ascii k ++ ": " ++ json_dumps x)
      with member.
    enough (H : list_sum (map (fun kv : string * json => let '(_, x) := kv in S (size x)) m)
                <= String.length (String.concat ", " (map member m)) + 1)
      by exact (le_n_S _ _ H).
    apply concat_length_sum. clear - IH.
    induction IH as [| [k x] m Hx _ IHm]; cbn [map]; constructor; [| exact IHm].
    cbn [snd] in Hx. unfold member, encode_basestring_ascii.
    cbn [String.append String.length]. rewrite !length_append. cbn [String.length]. lia.
Qed.

(** [json.loads(json.dumps(v))] is [v], for a well-formed [v]. *)
Lemma json_loads_dumps (v : json) : wf v = true -> json_loads (json_dumps v) = Ok v.
Proof.
  intros Hwf. unfold json_loads.
  pose proof (skip_ws_dumps v EmptyString) as Hskip.
  pose proof (scan_once_dumps v Hwf (S (2 * String.length (json_dumps v))) EmptyString)
    as Hscan.
  rewrite append_nil_r in Hskip, Hscan. rewrite Hskip, Hscan; [reflexivity | | reflexivity].
  pose proof (size_le_length v). lia.
Qed.

(** ** No raw newline in the text of a value *)

Lemma uint_no_newline (d : Decimal.uint) :
  contains newline (NilEmpty.string_of_uint d) = false.
Proof. induction d; cbn [NilEmpty.string_of_uint contains]; try reflexivity; exact IHd. Qed.

Lemma decimal_no_newline (n : Z) : contains newline (decimal n) = false.
Proof.
  destruct n as [| p | p]; [reflexivity | rewrite decimal_pos | rewrite decimal_neg];
    cbn [contains]; apply uint_no_newline.
Qed.

Lemma concat_no_newline (ss : list string) :
  Forall (fun s => contains newline s = false) ss ->
  contains newline (String.concat ", " ss) = false.
Proof.
  induction 1 as [| s ss Hs Hrest IH]; [reflexivity |].
  destruct Hrest as [| s' ss Hs' Hrest]; [exact Hs |].
  rewrite concat_cons2, !contains_append, Hs, IH. reflexivity.
Qed.

Lemma encode_no_newline (s : string) :
  contains newline (encode_basestring_ascii s) = false.
Proof.
  unfold encode_basestring_ascii. cbn [contains].
  rewrite contains_append, escape_no_newline. reflexivity.
Qed.

Lemma dumps_no_newline (v : json) : contains newline (json_dumps v) = false.
Proof.
  induction v as [| b | n | s | l IH | m IH] using json_induction.
  - reflexivity.
  - destruct b; reflexivity.
  - apply decimal_no_newline.
  - apply encode_no_newline.
  - cbn [json_dumps contains]. rewrite !contains_append, concat_no_newline; [reflexivity |].
    clear - IH. induction IH; cbn [map]; constructor; assumption.
  - cbn [json_dumps contains]. rewrite !contains_append, concat_no_newline; [reflexivity |].
    clear - IH. induction IH as [| [k x] m Hx _ IHm]; cbn [map]; constructor; [| exact IHm].
    rewrite !contains_append, encode_no_newline. exact Hx.
Qed.

(** ** Decoded values are well formed *)

Lemma distinct_dict_set (acc : dict) (k : string) (x : json) :
  distinct (map fst acc) = true -> distinct (map fst (dict_set acc k x)) = true.
Proof.
  induction acc as [| [k' x'] acc IH]; cbn [map fst dict_set distinct]; [reflexivity |].
  intros H. apply andb_prop in H as [Hk' Hd].
  destruct (String.eqb_spec k' k) as [-> | Hneq]; cbn [map fst distinct].
  - now rewrite Hk', Hd.
  - rewrite (IH Hd), andb_true_r. apply negb_true_iff.
    apply negb_true_iff in Hk'. clear - Hk' Hneq.
    induction acc as [| [k'' x''] acc IH]; cbn [map fst dict_set existsb] in *.
    + apply String.eqb_neq in Hneq. now rewrite Hneq.
    + apply orb_false_elim in Hk' as [H1 H2].
      destruct (String.eqb k'' k); cbn [map fst existsb]; rewrite H1; [exact H2 |].
      now apply IH.
Qed.

Lemma wf_values_dict_set (acc : dict) (k : string) (x : json) :
  forallb (fun kv => let '(_, y) := kv in wf y) acc = true ->
  wf x = true ->
  forallb (fun kv => let '(_, y) := kv in wf y) (dict_set acc k x) = true.
Proof.
  intros Hacc Hx. induction acc as [| [k' x'] acc IH]; cbn [dict_set forallb] in *.
  - now rewrite Hx.
  - apply andb_prop in Hacc as [Hx' Hacc].
    destruct (String.eqb k' k); cbn [forallb]; [now rewrite Hx, Hacc |].
    now rewrite Hx', IH.
Qed.

Lemma wf_dict_set (acc : dict) (k : string) (x : json) :
  wf (JObj acc) = true -> wf x = true -> wf (JObj (dict_set acc k x)) = true.
Proof.
  cbn [wf]. intros H Hx. apply andb_prop in H as [Hd Hv].
  now rewrite distinct_dict_set, wf_values_dict_set.
Qed.

Lemma decoder_wf (fuel : nat) :
  (forall s v rest, scan_once fuel s = Ok (v, rest) -> wf v = true)
  /\ (forall s acc v rest, wf (JObj acc) = true ->
        parse_object fuel s acc = Ok (v, rest) -> wf v = true)
  /\ (forall s acc v rest, wf (JArr acc) = true ->
        parse_array fuel s acc = Ok (v, rest) -> wf v = true).
Proof.
  induction fuel as [| f (IHs & IHo & IHa)]; [repeat split; intros; discriminate |].
  split; [| split].
  - intros [| c r] v rest; [discriminate |]. cbn [scan_once].
    destruct (Ascii.eqb c dquote).
    { intros H. apply bind_ok in H as ([t rest'] & _ & H). now injection H as <- <-. }
    destruct (Ascii.eqb c "{").
    { destruct (skip_ws r) as [| c1 r1]; [discriminate |].
      destruct (Ascii.eqb c1 "}"); [now intros [= <- <-] | now apply IHo]. }
    destruct (Ascii.eqb c "[").
    { destruct (skip_ws r) as [| c1 r1]; [discriminate |].
      destruct (Ascii.eqb c1 "]"); [now intros [= <- <-] | now apply IHa]. }
    destruct (strip_prefix "null" (String c r)); [now intros [= <- <-] |].
    destruct (strip_prefix "true" (String c r)); [now intros [= <- <-] |].
    destruct (strip_prefix "false" (String c r)); [now intros [= <- <-] |].
    destruct (strip_prefix "NaN" (String c r)); [discriminate |].
    destruct (strip_prefix "Infinity" (String c r)); [discriminate |].
    destruct (strip_prefix "-Infinity" (String c r)); [discriminate |].
    unfold scan_number.
    destruct (if Ascii.eqb c "-" then (true, r) else (false, String c r)) as [neg s1].
    destruct s1 as [| c1 r1]; [discriminate |].
    destruct (is_digit c1); [| discriminate].
    destruct (if Ascii.eqb c1 "0" then (0%Z, r1) else scan_digits r1 (digit_value c1))
      as [n rest0].
    destruct (float_follows rest0); [discriminate | now intros [= <- <-]].
  - intros [| c r] acc v rest Hacc; [discriminate |]. cbn [parse_object].
    destruct (Ascii.eqb c dquote); [| discriminate].
    intros H. apply bind_ok in H as ([k r1] & _ & H).
    destruct (skip_ws r1) as [| c2 r2]; [discriminate |].
    destruct (Ascii.eqb c2 ":"); [| discriminate].
    apply bind_ok in H as ([x r3] & Hx & H). apply IHs in Hx.
    destruct (skip_ws r3) as [| c4 r4]; [discriminate |].
    destruct (Ascii.eqb c4 "}"); [injection H as <- <-; now apply wf_dict_set |].
    destruct (Ascii.eqb c4 ","); [| discriminate].
    revert H. apply IHo. now apply wf_dict_set.
  - intros s acc v rest Hacc. cbn [parse_array].
    intros H. apply bind_ok in H as ([x r1] & Hx & H). apply IHs in Hx.
    assert (Hnext : wf (JArr (acc ++ [x])) = true).
    { cbn [wf] in *. rewrite forallb_app, Hacc. cbn [forallb]. now rewrite Hx. }
    destruct (skip_ws r1) as [| c2 r2]; [discriminate |].
    destruct (Ascii.eqb c2 "]"); [now injection H as <- <- |].
    destruct (Ascii.eqb c2 ","); [| discriminate].
    revert H. now apply IHa.
Qed.

(** What [json_loads] returns is well formed. *)
Lemma json_loads_wf (text : string) (v : json) : json_loads text = Ok v -> wf v = true.
Proof.
  unfold json_loads. intros H. apply bind_ok in H as ([v' rest] & Hv & H).
  destruct (skip_ws rest); [| discriminate]. injection H as ->.
  revert Hv. apply decoder_wf.
Qed.

(** ** Further properties of [form_question] *)

(** The loop looks at the contexts of the record and at the indices of the
    items, and at nothing else. *)
Lemma form_contexts_ext (obj obj' : json) (items items' : list (nat * json)) :
  getitem_str obj "CONTEXTS" = getitem_str obj' "CONTEXTS" ->
  map fst items = map fst items' ->
  forall st, form_contexts obj items st = form_contexts obj' items' st.
Proof.
  intros Hc. revert items'.
  induction items as [| [i x] items IH]; intros [| [i' x'] items'] Hfst st;
    try discriminate; [reflexivity |].
  injection Hfst as <- Hfst. cbn [form_contexts]. rewrite <- Hc.
  destruct (getitem_str obj "CONTEXTS") as [contexts | e]; [| reflexivity].
  cbn [bind]. destruct (getitem_int contexts i) as [c | e]; [| reflexivity].
  cbn [bind]. now apply IH.
Qed.

Lemma enumerate_indices {A : Type} (l : list A) :
  map fst (enumerate l) = seq 0 (length l).
Proof.
  unfold enumerate. generalize 0 as a.
  induction l as [| x l IH]; intros a; [reflexivity |].
  cbn [length seq combine map fst]. now rewrite IH.
Qed.

(** [form_question] on a record whose labels can be iterated over. *)
Lemma form_question_items (r : dict) (labels : json) (items : list json) :
  dict_get r "LABELS" = Some labels ->
  iter labels = Ok items ->
  form_question (JObj r)
  = match dict_get r "QUESTION" with
    | None => Raise (KeyError (KStr "QUESTION"))
    | Some q =>
        st <- form_contexts (JObj r) (enumerate items)
                ((EmptyString ++ ("QUESTION:" ++ str q ++ nl)) ++ "CONTEXT: ") ;;
        Ok (st ++ instruction_suffix)
    end.
Proof.
  intros Hl Hit. unfold form_question, getitem_str.
  destruct (dict_get r "QUESTION") as [q |]; [| reflexivity].
  cbn [bind]. rewrite Hl. cbn [bind]. now rewrite Hit.
Qed.

(** X1. The labels enter the prompt through the number of items the loop
    finds in them, be they the elements of an array, the characters of a
    text or the keys of an object: two records with the same question, the
    same contexts and as many label items get the same prompt, or the same
    exception. *)
Theorem labels_are_only_counted
        (r r' : dict) (labels labels' : json) (items items' : list json) :
  dict_get r "QUESTION" = dict_get r' "QUESTION" ->
  dict_get r "CONTEXTS" = dict_get r' "CONTEXTS" ->
  dict_get r "LABELS" = Some labels ->
  dict_get r' "LABELS" = Some labels' ->
  iter labels = Ok items ->
  iter labels' = Ok items' ->
  length items = length items' ->
  form_question (JObj r) = form_question (JObj r').
Proof.
  intros Hq Hc Hl Hl' Hit Hit' Hlen.
  rewrite (form_question_items r labels items Hl Hit),
          (form_question_items r' labels' items' Hl' Hit'), <- Hq.
  destruct (dict_get r "QUESTION") as [q |]; [| reflexivity].
  rewrite (form_contexts_ext (JObj r) (JObj r') (enumerate items) (enumerate items')).
  - reflexivity.
  - unfold getitem_str. now rewrite Hc.
  - now rewrite !enumerate_indices, Hlen.
Qed.

Lemma labels_are_only_counted_witness :
  form_question (JObj two_passages) = form_question (JObj labels_as_text).
Proof.
  apply (labels_are_only_counted two_passages labels_as_text
           (JArr [JStr "L1"; JStr "L2"]) (JStr "ab")
           [JStr "L1"; JStr "L2"] [JStr "a"; JStr "b"]); reflexivity.
Defined.

(** ** Further properties of a run *)

Lemma convert_to_jsonl_same_but
      (data_path output_path : string) (fs fs' : filesystem)
      (res : result (list json)) :
  convert_to_jsonl data_path output_path fs = (res, fs') ->
  same_but output_path fs fs'.
Proof.
  rewrite convert_to_jsonl_unfold.
  destruct (lookup (files fs) data_path) as [text |];
    [| intros [= <- <-]; apply same_but_refl].
  destruct (json_loads text) as [data | e]; [| intros [= <- <-]; apply same_but_refl].
  destruct (convert_data data) as [objs | e]; [| intros [= <- <-]; apply same_but_refl].
  destruct (write_jsonl output_path objs fs) as [r fs2] eqn:Hrun.
  intros H. assert (Hfs : fs2 = fs') by (destruct r; now injection H). subst fs2.
  eapply write_jsonl_same_but. exact Hrun.
Qed.

(** X2. Whatever a run returns or raises, it leaves every file other than
    the output file as it was, the source among them when it is not the
    output, and it changes no permission. *)
Theorem convert_to_jsonl_touches_output_only
        (data_path output_path : string) (fs fs' : filesystem)
        (res : result (list json)) :
  convert_to_jsonl data_path output_path fs = (res, fs') ->
  readonly fs' = readonly fs
  /\ forall path, path <> output_path -> lookup (files fs') path = lookup (files fs) path.
Proof.
  intros Hrun. pose proof (convert_to_jsonl_same_but _ _ _ _ _ Hrun) as Hsame.
  split; [apply Hsame |].
  intros path Hneq. apply (same_but_lookup output_path fs fs' path Hsame). congruence.
Qed.

Lemma convert_to_jsonl_touches_output_only_witness :
  readonly (snd (convert_to_jsonl "pubmedqa/data/test_set.json" "pubmedqa_test.jsonl"
                   full_device))
  = readonly full_device
  /\ forall path, path <> "pubmedqa_test.jsonl" ->
       lookup (files (snd (convert_to_jsonl "pubmedqa/data/test_set.json"
                             "pubmedqa_test.jsonl" full_device))) path
       = lookup (files full_device) path.
Proof.
  apply (convert_to_jsonl_touches_output_only "pubmedqa/data/test_set.json"
           "pubmedqa_test.jsonl" full_device _
           (fst (convert_to_jsonl "pubmedqa/data/test_set.json" "pubmedqa_test.jsonl"
                   full_device))).
  apply surjective_pairing.
Defined.

(** X3. A source that holds the empty mapping is converted to no record:
    the run returns the empty list and leaves the output file empty,
    whatever it held, and needs no room on the device. *)
Theorem empty_mapping_gives_empty_file
        (data_path output_path text : string) (fs : filesystem) :
  lookup (files fs) data_path = Some text ->
  json_loads text = Ok (JObj []) ->
  writable fs output_path = true ->
  exists fs',
    convert_to_jsonl data_path output_path fs = (Ok [], fs')
    /\ lookup (files fs') output_path = Some EmptyString.
Proof.
  intros Hread Hload Hw. eexists. split.
  - apply (convert_to_jsonl_success _ _ _ _ [] _ Hread Hload eq_refl Hw).
    cbn. lia.
  - cbn [files]. apply lookup_update_same.
Qed.

Lemma empty_mapping_gives_empty_file_witness :
  exists fs',
    convert_to_jsonl "pubmedqa/data/test_set.json" "pubmedqa_test.jsonl" empty_mapping_fs
    = (Ok [], fs')
    /\ lookup (files fs') "pubmedqa_test.jsonl" = Some EmptyString.
Proof.
  apply (empty_mapping_gives_empty_file "pubmedqa/data/test_set.json"
           "pubmedqa_test.jsonl" " { } " empty_mapping_fs); vm_compute; reflexivity.
Defined.

(** X4. A source that decodes to anything but an object, an array of
    records for one, has no [keys]: the run raises [AttributeError] and
    touches no file. *)
Theorem top_level_must_be_an_object
        (data_path output_path text : string) (data : json) (fs : filesystem) :
  lookup (files fs) data_path = Some text ->
  json_loads text = Ok data ->
  (forall m, data <> JObj m) ->
  convert_to_jsonl data_path output_path fs = (Raise AttributeError, fs).
Proof.
  intros Hread Hload Hdata. rewrite convert_to_jsonl_unfold, Hread, Hload.
  destruct data as [| | | | | m]; try reflexivity. now destruct (Hdata m).
Qed.

Lemma top_level_must_be_an_object_witness :
  convert_to_jsonl "pubmedqa/data/test_set.json" "pubmedqa_test.jsonl" array_fs
  = (Raise AttributeError, array_fs).
Proof.
  apply (top_level_must_be_an_object "pubmedqa/data/test_set.json" "pubmedqa_test.jsonl"
           array_text (JArr [JObj no_passage]) array_fs).
  - reflexivity.
  - vm_compute. reflexivity.
  - discriminate.
Defined.

(** X5. The run stops at the first record, in the order of the keys, that
    raises: it raises the exception of that record, whatever it is and
    whatever the later records would do, and writes nothing, the records
    converted before it included. *)
Theorem first_failing_record_decides
        (data_path output_path text : string) (m : dict) (fs : filesystem)
        (pre : list string) (done : list json) (k : string) (post : list string)
        (obj : json) (e : exn) :
  lookup (files fs) data_path = Some text ->
  json_loads text = Ok (JObj m) ->
  map fst m = (pre ++ k :: post)%list ->
  Forall2 (converts (JObj m)) pre done ->
  dict_get m k = Some obj ->
  convert_record obj = Raise e ->
  convert_to_jsonl data_path output_path fs = (Raise e, fs).
Proof.
  intros Hread Hload Hkeys Hpre Hk He.
  rewrite convert_to_jsonl_unfold, Hread, Hload.
  unfold convert_data. cbn [keys bind]. rewrite Hkeys.
  rewrite (convert_keys_raise (JObj m) pre done k post obj e); try assumption.
  - reflexivity.
  - unfold getitem_str. now rewrite Hk.
Qed.

Lemma first_failing_record_decides_witness :
  convert_to_jsonl "pubmedqa/data/test_set.json" "pubmedqa_test.jsonl" bad_records_fs
  = (Raise TypeError, bad_records_fs).
Proof.
  refine (first_failing_record_decides "pubmedqa/data/test_set.json" "pubmedqa_test.jsonl"
            bad_records_text bad_records bad_records_fs
            ["q1"] [example scenario_prompt (JStr "yes")] "q2" ["q3"]
            (JStr "not a record") TypeError eq_refl _ eq_refl _ eq_refl eq_refl).
  - vm_compute. reflexivity.
  - constructor; [| constructor]. exists (JObj scenario_record).
    split; vm_compute; reflexivity.
Defined.

(** ** The three conversions of the notebook *)

(** A run that finds the device roomy enough, with what it leaves for the
    next run. *)
Lemma convert_to_jsonl_then
      (data_path output_path text : string) (data : json) (objs : list json)
      (fs : filesystem) :
  lookup (files fs) data_path = Some text ->
  json_loads text = Ok data ->
  convert_data data = Ok objs ->
  writable fs output_path = true ->
  String.length (text_of objs) <= free fs ->
  exists fs1,
    convert_to_jsonl data_path output_path fs = (Ok objs, fs1)
    /\ readonly fs1 = readonly fs
    /\ lookup (files fs1) output_path = Some (text_of objs)
    /\ (forall path, path <> output_path ->
                     lookup (files fs1) path = lookup (files fs) path)
    /\ free fs - String.length (text_of objs) <= free fs1.
Proof.
  intros Hread Hload Hconv Hw Hfit. eexists. split; [| split; [| split; [| split]]].
  - apply (convert_to_jsonl_success _ _ _ _ _ _ Hread Hload Hconv Hw).
    unfold room. lia.
  - reflexivity.
  - cbn [files]. apply lookup_update_same.
  - intros path Hneq. cbn [files]. apply lookup_update_other. congruence.
  - cbn [free]. unfold room. lia.
Qed.

(** X6. When the three sources decode to mappings whose records convert,
    the three output files can be opened and the device has room for the
    three texts, the cell returns the three lists and leaves the lines of
    each set in the file of that set; a later conversion does not disturb
    the output of an earlier one, and the sources are as they were. *)
Theorem convert_datasets_writes_three_files
        (fs : filesystem) (t1 t2 t3 : string) (d1 d2 d3 : json) (o1 o2 o3 : list json) :
  lookup (files fs) "pubmedqa/data/test_set.json" = Some t1 ->
  lookup (files fs) "pubmedqa/data/pqal_fold0/train_set.json" = Some t2 ->
  lookup (files fs) "pubmedqa/data/pqal_fold0/dev_set.json" = Some t3 ->
  json_loads t1 = Ok d1 -> json_loads t2 = Ok d2 -> json_loads t3 = Ok d3 ->
  convert_data d1 = Ok o1 -> convert_data d2 = Ok o2 -> convert_data d3 = Ok o3 ->
  writable fs "pubmedqa_test.jsonl" = true ->
  writable fs "pubmedqa_train.jsonl" = true ->
  writable fs "pubmedqa_val.jsonl" = true ->
  String.length (text_of o1) + String.length (text_of o2) + String.length (text_of o3)
  <= free fs ->
  exists fs',
    convert_datasets fs = (Ok (o1, o2, o3), fs')
    /\ lookup (files fs') "pubmedqa_test.jsonl" = Some (text_of o1)
    /\ lookup (files fs') "pubmedqa_train.jsonl" = Some (text_of o2)
    /\ lookup (files fs') "pubmedqa_val.jsonl" = Some (text_of o3)
    /\ lookup (files fs') "pubmedqa/data/test_set.json" = Some t1
    /\ lookup (files fs') "pubmedqa/data/pqal_fold0/train_set.json" = Some t2
    /\ lookup (files fs') "pubmedqa/data/pqal_fold0/dev_set.json" = Some t3.
Proof.
  intros R1 R2 R3 L1 L2 L3 C1 C2 C3 W1 W2 W3 Hroom.
  destruct (convert_to_jsonl_then _ "pubmedqa_test.jsonl" _ _ _ fs R1 L1 C1 W1)
    as (fs1 & Run1 & Ro1 & Out1 & Keep1 & Free1); [lia |].
  destruct (convert_to_jsonl_then "pubmedqa/data/pqal_fold0/train_set.json"
              "pubmedqa_train.jsonl" t2 d2 o2 fs1)
    as (fs2 & Run2 & Ro2 & Out2 & Keep2 & Free2);
    [ rewrite Keep1 by discriminate; exact R2 | exact L2 | exact C2
    | unfold writable in *; now rewrite Ro1 | lia | ].
  destruct (convert_to_jsonl_then "pubmedqa/data/pqal_fold0/dev_set.json"
              "pubmedqa_val.jsonl" t3 d3 o3 fs2)
    as (fs3 & Run3 & Ro3 & Out3 & Keep3 & Free3);
    [ rewrite Keep2, Keep1 by discriminate; exact R3 | exact L3 | exact C3
    | unfold writable in *; now rewrite Ro2, Ro1 | lia | ].
  exists fs3. unfold convert_datasets, io_bind, io_ret. rewrite Run1, Run2, Run3.
  repeat split.
  - rewrite Keep3, Keep2 by discriminate. exact Out1.
  - rewrite Keep3 by discriminate. exact Out2.
  - exact Out3.
  - rewrite Keep3, Keep2, Keep1 by discriminate. exact R1.
  - rewrite Keep3, Keep2, Keep1 by discriminate. exact R2.
  - rewrite Keep3, Keep2, Keep1 by discriminate. exact R3.
Qed.

Lemma convert_datasets_writes_three_files_witness :
  exists fs',
    convert_datasets three_sources
    = (Ok ([example scenario_prompt (JStr "yes")],
           [example scenario_prompt (JStr "yes");
            example ("QUESTION:Is Y true?" ++ nl ++ "CONTEXT: Evidence B" ++ nl
                     ++ instruction_suffix) (JStr "no")],
           [example ("QUESTION:Is X true?" ++ nl ++ "CONTEXT: " ++ instruction_suffix)
                    (JStr "yes")]), fs')
    /\ lookup (files fs') "pubmedqa_test.jsonl"
       = Some (text_of [example scenario_prompt (JStr "yes")])
    /\ lookup (files fs') "pubmedqa_train.jsonl"
       = Some (text_of [example scenario_prompt (JStr "yes");
                        example ("QUESTION:Is Y true?" ++ nl ++ "CONTEXT: Evidence B" ++ nl
                                 ++ instruction_suffix) (JStr "no")])
    /\ lookup (files fs') "pubmedqa_val.jsonl"
       = Some (text_of [example ("QUESTION:Is X true?" ++ nl ++ "CONTEXT: "
                                 ++ instruction_suffix) (JStr "yes")])
    /\ lookup (files fs') "pubmedqa/data/test_set.json" = Some scenario_text
    /\ lookup (files fs') "pubmedqa/data/pqal_fold0/train_set.json" = Some two_records_text
    /\ lookup (files fs') "pubmedqa/data/pqal_fold0/dev_set.json" = Some no_contexts_text.
Proof.
  apply (convert_datasets_writes_three_files three_sources
           scenario_text two_records_text no_contexts_text
           scenario_mapping (JObj two_records_dict) (JObj [("q1", JObj no_contexts)]));
    try (vm_compute; reflexivity).
  apply Nat.leb_le. vm_compute. reflexivity.
Defined.

(** X7. The cell does not undo what it has done: when the test set is
    converted and the training source is missing, the cell raises
    [FileNotFoundError] with the lines of the test set in their file, and
    with the two other output files as they were. *)
Theorem convert_datasets_keeps_earlier_output
        (fs : filesystem) (t1 : string) (d1 : json) (o1 : list json) :
  lookup (files fs) "pubmedqa/data/test_set.json" = Some t1 ->
  json_loads t1 = Ok d1 ->
  convert_data d1 = Ok o1 ->
  writable fs "pubmedqa_test.jsonl" = true ->
  String.length (text_of o1) <= free fs ->
  lookup (files fs) "pubmedqa/data/pqal_fold0/train_set.json" = None ->
  exists fs',
    convert_datasets fs = (Raise FileNotFoundError, fs')
    /\ lookup (files fs') "pubmedqa_test.jsonl" = Some (text_of o1)
    /\ lookup (files fs') "pubmedqa_train.jsonl" = lookup (files fs) "pubmedqa_train.jsonl"
    /\ lookup (files fs') "pubmedqa_val.jsonl" = lookup (files fs) "pubmedqa_val.jsonl".
Proof.
  intros R1 L1 C1 W1 Hroom Hmissing.
  destruct (convert_to_jsonl_then _ "pubmedqa_test.jsonl" _ _ _ fs R1 L1 C1 W1 Hroom)
    as (fs1 & Run1 & Ro1 & Out1 & Keep1 & Free1).
  exists fs1. unfold convert_datasets, io_bind. rewrite Run1.
  rewrite (convert_to_jsonl_unfold "pubmedqa/data/pqal_fold0/train_set.json").
  rewrite Keep1, Hmissing by discriminate.
  repeat split; [exact Out1 | |]; apply Keep1; discriminate.
Qed.

Lemma convert_datasets_keeps_earlier_output_witness :
  exists fs',
    convert_datasets scenario_fs = (Raise FileNotFoundError, fs')
    /\ lookup (files fs') "pubmedqa_test.jsonl"
       = Some (text_of [example scenario_prompt (JStr "yes")])
    /\ lookup (files fs') "pubmedqa_train.jsonl"
       = lookup (files scenario_fs) "pubmedqa_train.jsonl"
    /\ lookup (files fs') "pubmedqa_val.jsonl"
       = lookup (files scenario_fs) "pubmedqa_val.jsonl".
Proof.
  apply (convert_datasets_keeps_earlier_output scenario_fs scenario_text scenario_mapping);
    try (vm_compute; reflexivity).
  apply Nat.leb_le. vm_compute. reflexivity.
Defined.

(** ** The lines of the output, read back *)

Lemma lines_of_text (objs : list json) :
  split_lines (text_of objs) = map json_dumps objs.
Proof.
  apply split_lines_text. apply Forall_forall. intros o _. apply dumps_no_newline.
Qed.

Lemma loads_lines (objs : list json) :
  forallb wf objs = true ->
  map json_loads (map json_dumps objs) = map Ok objs.
Proof.
  induction objs as [| o objs IH]; [reflexivity |]. cbn [forallb map].
  intros H. apply andb_prop in H as [Ho Hobjs].
  now rewrite (json_loads_dumps o Ho), IH.
Qed.

(** X8. When the file can be opened and the device has room, [write_jsonl]
    replaces whatever the file held by the texts of the objects, one line
    per object and in their order: a newline inside a value is written
    escaped, and never ends a line. *)
Theorem write_jsonl_one_line_per_object
        (fname : string) (json_objs : list json) (fs : filesystem) :
  writable fs fname = true ->
  String.length (text_of json_objs) <= room fs fname ->
  exists fs',
    write_jsonl fname json_objs fs = (Ok tt, fs')
    /\ lookup (files fs') fname = Some (text_of json_objs)
    /\ split_lines (content fs' fname) = map json_dumps json_objs.
Proof.
  intros Hw Hfit. eexists. split; [apply (write_jsonl_fits _ _ _ Hw Hfit) |].
  split.
  - cbn [files]. apply lookup_update_same.
  - rewrite content_update. apply lines_of_text.
Qed.

Lemma write_jsonl_one_line_per_object_witness :
  exists fs',
    write_jsonl "pubmedqa_test.jsonl" mixed_objects used_fs = (Ok tt, fs')
    /\ lookup (files fs') "pubmedqa_test.jsonl" = Some (text_of mixed_objects)
    /\ split_lines (content fs' "pubmedqa_test.jsonl") = map json_dumps mixed_objects.
Proof.
  apply (write_jsonl_one_line_per_object "pubmedqa_test.jsonl" mixed_objects used_fs).
  - reflexivity.
  - apply Nat.leb_le. vm_compute. reflexivity.
Defined.

(** X9. The file [write_jsonl] leaves is read back by decoding its lines
    one by one: for objects whose keys are distinct at every depth, the
    lines decode to the objects that were written, in their order. *)
Theorem write_jsonl_round_trip
        (fname : string) (json_objs : list json) (fs : filesystem) :
  forallb wf json_objs = true ->
  writable fs fname = true ->
  String.length (text_of json_objs) <= room fs fname ->
  exists fs',
    write_jsonl fname json_objs fs = (Ok tt, fs')
    /\ map json_loads (split_lines (content fs' fname)) = map Ok json_objs.
Proof.
  intros Hwf Hw Hfit. eexists. split; [apply (write_jsonl_fits _ _ _ Hw Hfit) |].
  rewrite content_update, lines_of_text. now apply loads_lines.
Qed.

Lemma write_jsonl_round_trip_witness :
  exists fs',
    write_jsonl "pubmedqa_test.jsonl" mixed_objects used_fs = (Ok tt, fs')
    /\ map json_loads (split_lines (content fs' "pubmedqa_test.jsonl"))
       = map Ok mixed_objects.
Proof.
  apply (write_jsonl_round_trip "pubmedqa_test.jsonl" mixed_objects used_fs).
  - reflexivity.
  - reflexivity.
  - apply Nat.leb_le. vm_compute. reflexivity.
Defined.

Lemma wf_getitem_str (v : json) (k : string) (x : json) :
  wf v = true -> getitem_str v k = Ok x -> wf x = true.
Proof.
  destruct v as [| | | | | m]; try discriminate. cbn [wf getitem_str].
  intros H. apply andb_prop in H as [_ H].
  induction m as [| [k' y] m IH]; cbn [dict_get forallb] in *; [discriminate |].
  apply andb_prop in H as [Hy Hm].
  destruct (String.eqb k' k); [now intros [= <-] | now apply IH].
Qed.

Lemma convert_record_wf (obj o : json) :
  wf obj = true -> convert_record obj = Ok o -> wf o = true.
Proof.
  intros Hwf H. unfold convert_record in H.
  apply bind_ok in H as (prompt & _ & H).
  apply bind_ok in H as (completion & Hc & H). injection H as <-.
  apply (wf_getitem_str _ _ _ Hwf) in Hc. cbn. now rewrite Hc.
Qed.

Lemma convert_data_wf (data : json) (objs : list json) :
  wf data = true -> convert_data data = Ok objs -> forallb wf objs = true.
Proof.
  intros Hwf H. apply convert_data_inv in H as (m & -> & Hall).
  induction Hall as [| k o ks objs (obj & Hk & Ho) _ IH]; [reflexivity |].
  cbn [forallb]. rewrite IH, andb_true_r.
  apply (convert_record_wf obj o); [| exact Ho].
  now apply (wf_getitem_str (JObj m) k).
Qed.

Lemma write_jsonl_ok_content (p : string) (objs : list json) (fs fs' : filesystem) (u : unit) :
  write_jsonl p objs fs = (Ok u, fs') -> content fs' p = text_of objs.
Proof.
  destruct (writable fs p) eqn:Hw.
  - destruct (Nat.leb_spec (String.length (text_of objs)) (room fs p)) as [Hfit | Hover].
    + rewrite (write_jsonl_fits _ _ _ Hw Hfit). destruct u. intros [= <-].
      apply content_update.
    + rewrite (write_jsonl_overflow _ _ _ Hw Hover). discriminate.
  - unfold write_jsonl, io_bind. rewrite (open_wt_readonly _ _ Hw). discriminate.
Qed.

(** X10. Whatever the records hold, valid or not, a run that returns has
    left a file whose lines are the texts of the returned records and
    decode to them, in their order: an answer that is a number, an array
    or an object is written as such, not as a string. *)
Theorem output_decodes_to_returned_records
        (data_path output_path : string) (fs fs' : filesystem) (objs : list json) :
  convert_to_jsonl data_path output_path fs = (Ok objs, fs') ->
  split_lines (content fs' output_path) = map json_dumps objs
  /\ map json_loads (split_lines (content fs' output_path)) = map Ok objs.
Proof.
  rewrite convert_to_jsonl_unfold.
  destruct (lookup (files fs) data_path) as [text |]; [| discriminate].
  destruct (json_loads text) as [data | e] eqn:Hload; [| discriminate].
  destruct (convert_data data) as [objs' | e] eqn:Hconv; [| discriminate].
  destruct (write_jsonl output_path objs' fs) as [[u | e] fs2] eqn:Hrun; [| discriminate].
  intros [= <- <-].
  rewrite (write_jsonl_ok_content _ _ _ _ _ Hrun), lines_of_text.
  split; [reflexivity |]. apply loads_lines.
  apply (convert_data_wf data); [| exact Hconv]. now apply (json_loads_wf text).
Qed.

Lemma output_decodes_to_returned_records_witness :
  split_lines (content (snd (convert_to_jsonl "pubmedqa/data/test_set.json"
                               "pubmedqa_test.jsonl" nested_answer_fs))
                 "pubmedqa_test.jsonl")
  = map json_dumps [nested_answer_record]
  /\ map json_loads
       (split_lines (content (snd (convert_to_jsonl "pubmedqa/data/test_set.json"
                                     "pubmedqa_test.jsonl" nested_answer_fs))
                       "pubmedqa_test.jsonl"))
     = map Ok [nested_answer_record].
Proof.
  apply (output_decodes_to_returned_records "pubmedqa/data/test_set.json"
           "pubmedqa_test.jsonl" nested_answer_fs).
  vm_compute. reflexivity.
Defined.

(** ** A run that overwrites its source *)

(** A line of the output decodes to its record ... *)
Lemma json_loads_line (o : json) :
  wf o = true -> json_loads (json_dumps o ++ nl) = Ok o.
Proof.
  intros Hwf. unfold json_loads. rewrite skip_ws_dumps.
  rewrite (scan_once_dumps o Hwf _ nl); [reflexivity | | reflexivity].
  pose proof (size_le_length o). rewrite length_append. lia.
Qed.

(** ... and two lines or more are no JSON text. *)
Lemma json_loads_two_lines (o1 o2 : json) (objs : list json) :
  wf o1 = true -> json_loads (text_of (o1 :: o2 :: objs)) = Raise JSONDecodeError.
Proof.
  intros Hwf. rewrite !text_of_cons, !append_assoc. unfold json_loads.
  rewrite skip_ws_dumps.
  rewrite (scan_once_dumps o1 Hwf _ (nl ++ json_dumps o2 ++ nl ++ text_of objs));
    [| pose proof (size_le_length o1); rewrite length_append; lia | reflexivity].
  cbn [bind nl String.append]. rewrite skip_ws_newline, skip_ws_dumps.
  destruct (dumps_head o2) as (c & r & -> & _). reflexivity.
Qed.

Lemma convert_record_shape (obj o : json) :
  convert_record obj = Ok o -> exists prompt completion, o = example prompt completion.
Proof.
  unfold convert_record. intros H.
  apply bind_ok in H as (prompt & _ & H).
  apply bind_ok in H as (completion & _ & H). injection H as <-. now eexists _, _.
Qed.

Lemma write_jsonl_ok_lookup (p : string) (objs : list json) (fs fs' : filesystem) (u : unit) :
  write_jsonl p objs fs = (Ok u, fs') -> lookup (files fs') p = Some (text_of objs).
Proof.
  destruct (writable fs p) eqn:Hw.
  - destruct (Nat.leb_spec (String.length (text_of objs)) (room fs p)) as [Hfit | Hover].
    + rewrite (write_jsonl_fits _ _ _ Hw Hfit). destruct u. intros [= <-].
      cbn [files]. apply lookup_update_same.
    + rewrite (write_jsonl_overflow _ _ _ Hw Hover). discriminate.
  - unfold write_jsonl, io_bind. rewrite (open_wt_readonly _ _ Hw). discriminate.
Qed.

(** X11. A run whose output path is its source path reads the source
    before it overwrites it, and cannot be repeated: the file then holds
    the lines, which are no mapping of records, and a second run raises
    [JSONDecodeError] (no line, or several) or [TypeError] (one line) and
    leaves the file as it is. *)
Theorem in_place_run_cannot_be_repeated
        (path : string) (fs fs' : filesystem) (objs : list json) :
  convert_to_jsonl path path fs = (Ok objs, fs') ->
  lookup (files fs') path = Some (text_of objs)
  /\ exists e,
       (e = JSONDecodeError \/ e = TypeError)
       /\ convert_to_jsonl path path fs' = (Raise e, fs').
Proof.
  rewrite (convert_to_jsonl_unfold path path fs).
  destruct (lookup (files fs) path) as [text |]; [| discriminate].
  destruct (json_loads text) as [data | e] eqn:Hload; [| discriminate].
  destruct (convert_data data) as [objs' | e] eqn:Hconv; [| discriminate].
  destruct (write_jsonl path objs' fs) as [[u | e] fs2] eqn:Hrun; [| discriminate].
  intros [= <- <-].
  pose proof (write_jsonl_ok_lookup _ _ _ _ _ Hrun) as Hfile.
  split; [exact Hfile |].
  assert (Hwf : forallb wf objs' = true).
  { apply (convert_data_wf data); [| exact Hconv]. now apply (json_loads_wf text). }
  rewrite (convert_to_jsonl_unfold path path fs2), Hfile.
  destruct objs' as [| o1 [| o2 objs']].
  - exists JSONDecodeError. split; [now left | reflexivity].
  - exists TypeError. split; [now right |].
    cbn [forallb] in Hwf. apply andb_prop in Hwf as [Hwf _].
    change (text_of [o1]) with ((json_dumps o1 ++ nl) ++ EmptyString).
    rewrite append_nil_r, (json_loads_line o1 Hwf).
    apply convert_data_inv in Hconv as (m & _ & Hall).
    destruct (map fst m) as [| k ks]; inversion Hall as [| ? ? ? ? (obj & _ & Ho) _]; subst.
    apply convert_record_shape in Ho as (prompt & completion & ->). reflexivity.
  - exists JSONDecodeError. split; [now left |].
    cbn [forallb] in Hwf. apply andb_prop in Hwf as [Hwf _].
    now rewrite (json_loads_two_lines o1 o2 objs' Hwf).
Qed.

Lemma in_place_run_cannot_be_repeated_witness :
  lookup (files (snd (convert_to_jsonl "pubmedqa.json" "pubmedqa.json" in_place_fs)))
         "pubmedqa.json"
  = Some (text_of [example scenario_prompt (JStr "yes")])
  /\ exists e,
       (e = JSONDecodeError \/ e = TypeError)
       /\ convert_to_jsonl "pubmedqa.json" "pubmedqa.json"
            (snd (convert_to_jsonl "pubmedqa.json" "pubmedqa.json" in_place_fs))
          = (Raise e, snd (convert_to_jsonl "pubmedqa.json" "pubmedqa.json" in_place_fs)).
Proof.
  apply (in_place_run_cannot_be_repeated "pubmedqa.json" in_place_fs).
  vm_compute. reflexivity.
Defined.

(** ** Contexts that are a text *)

Lemma get_substring (s : string) :
  forall i c, String.get i s = Some c -> substring i 1 s = String c EmptyString.
Proof.
  induction s as [| x s IH]; intros [| i] c; cbn [String.get substring]; try discriminate.
  - intros [= ->]. now destruct s.
  - apply IH.
Qed.

Lemma get_in_range (s : string) :
  forall i, i < String.length s -> exists c, String.get i s = Some c.
Proof.
  induction s as [| x s IH]; intros [| i] Hi; cbn [String.length String.get] in *;
    try lia; [now exists x | apply IH; lia].
Qed.

Lemma form_contexts_text (r : dict) (s : string) (ls : list json) :
  dict_get r "CONTEXTS" = Some (JStr s) ->
  forall a st, a + length ls <= String.length s ->
  form_contexts (JObj r) (combine (seq a (length ls)) ls) st
  = Ok (st ++ join (map (fun i => substring i 1 s ++ nl) (seq a (length ls)))).
Proof.
  intros Hc. induction ls as [| l ls IH]; intros a st Ha; cbn [length seq combine map join].
  - now rewrite append_nil_r.
  - cbn [form_contexts getitem_str]. rewrite Hc. cbn [bind getitem_int].
    destruct (get_in_range s a) as [c Hget]; [cbn [length] in Ha; lia |].
    rewrite Hget. cbn [bind str]. rewrite (get_substring s a c Hget).
    rewrite IH by (cbn [length] in Ha; lia). now rewrite !append_assoc.
Qed.

(** X12. Contexts that are one text, where an array of passages is
    expected, raise no exception: the prompt takes the characters of the
    text for the passages, the first ones, one per line and as many as
    there are labels. *)
Theorem contexts_given_as_text (r : dict) (q : json) (s : string) (ls : list json) :
  dict_get r "QUESTION" = Some q ->
  dict_get r "CONTEXTS" = Some (JStr s) ->
  dict_get r "LABELS" = Some (JArr ls) ->
  length ls <= String.length s ->
  form_question (JObj r)
  = Ok ("QUESTION:" ++ str q ++ nl ++ "CONTEXT: "
        ++ join (map (fun i => substring i 1 s ++ nl) (seq 0 (length ls)))
        ++ instruction_suffix).
Proof.
  intros Hq Hc Hl Hlen.
  rewrite (form_question_items r (JArr ls) ls Hl eq_refl), Hq. unfold enumerate.
  rewrite (form_contexts_text r s ls Hc) by (simpl; lia). cbn [bind String.append].
  now rewrite !append_assoc.
Qed.

Lemma contexts_given_as_text_witness :
  form_question (JObj contexts_as_text)
  = Ok ("QUESTION:" ++ "Is X true?" ++ nl ++ "CONTEXT: "
        ++ join ["E" ++ nl; "v" ++ nl] ++ instruction_suffix).
Proof.
  apply (contexts_given_as_text contexts_as_text (JStr "Is X true?") "Evidence A"
           [JStr "L1"; JStr "L2"]); try reflexivity.
  simpl. lia.
Defined.
